(** * Request translation layer: shallow embedding of [src/utils/utils.js]

    The development follows the source file function by function:
    - [JsString]: the [String.prototype] methods and the regular
      expressions the source applies to text;
    - [SignatureCache]: the two process-wide [Map]s of thought signatures;
    - [Converter]: the fold from chat turns to backend turns;
    - [Assembler]: [generateGenerationConfig];
    - [Sanitizer]: [cleanJsonSchema] over an arena of objects, with the
      [WeakSet] of visited references;
    - [Samples]: inputs on which the embedding is evaluated.

    The properties follow the embedding, component by component.

    Strings are sequences of code units; the model covers code units
    below 256 (one [ascii] each). *)

From Stdlib Require Import ZArith Ascii String DecimalString.
From stdpp Require Import base option list gmap strings.

Set Warnings "-register-all,-clear-no-such-hyp".

(** ** JavaScript string primitives *)
Module JsString.

(** White space and line terminators removed by [String.prototype.trim]
    (code units below 256: TAB, LF, VT, FF, CR, SP, NBSP). *)
Definition is_white (c : ascii) : bool :=
  match c with
  | "009" | "010" | "011" | "012" | "013" | " " | "160" => true
  | _ => false
  end%char.

Definition is_empty (s : string) : bool :=
  match s with "" => true | _ => false end.

Fixpoint trimStart (s : string) : string :=
  match s with
  | String c r => if is_white c then trimStart r else s
  | "" => ""
  end.

Fixpoint trimEnd (s : string) : string :=
  match s with
  | String c r =>
      let r' := trimEnd r in
      if is_white c && is_empty r' then "" else String c r'
  | "" => ""
  end.

(** [s.trim()] *)
Definition trim (s : string) : string := trimEnd (trimStart s).

(** [s.startsWith(p)], returning what follows the prefix. *)
Fixpoint strip_prefix (p s : string) : option string :=
  match p, s with
  | "", _ => Some s
  | String a p', String b s' =>
      if Ascii.eqb a b then strip_prefix p' s' else None
  | String _ _, "" => None
  end.

Definition startsWith (s p : string) : bool :=
  match strip_prefix p s with Some _ => true | None => false end.

(** [s.includes(sub)] *)
Fixpoint includes (s sub : string) : bool :=
  startsWith s sub ||
  match s with
  | String _ r => includes r sub
  | "" => false
  end.

(** [s.indexOf(sub)] as a count of code units before the first
    occurrence. *)
Fixpoint indexOf (s sub : string) : option nat :=
  if startsWith s sub then Some 0
  else match s with
       | String _ r => S <$> indexOf r sub
       | "" => None
       end.

(** Number of leading code units satisfying [p]. *)
Fixpoint span_length (p : ascii -> bool) (s : string) : nat :=
  match s with
  | String c r => if p c then S (span_length p r) else 0
  | "" => 0
  end.

Fixpoint drop (n : nat) (s : string) : string :=
  match n, s with
  | S k, String _ r => drop k r
  | _, _ => s
  end.

(** [s.toLowerCase()] on code units below 256. *)
Definition lower_char (c : ascii) : ascii :=
  let n := nat_of_ascii c in
  if ((65 <=? n) && (n <=? 90)) || ((192 <=? n) && (n <=? 214))
     || ((216 <=? n) && (n <=? 222))
  then ascii_of_nat (n + 32) else c.

Fixpoint toLowerCase (s : string) : string :=
  match s with
  | String c r => String (lower_char c) (toLowerCase r)
  | "" => ""
  end.

(** [s.replace(re, '')] for a global regular expression [re] whose
    match at the head of a string, when there is one, has the length
    [match_len] computes.  The scan moves left to right; after a match it
    resumes behind the match, after a failure one code unit further. *)
Fixpoint remove_matches (match_len : string -> option nat)
         (skip : nat) (s : string) : string :=
  match s with
  | "" => ""
  | String c r =>
      match skip with
      | S k => remove_matches match_len k r
      | 0 =>
          match match_len s with
          | Some (S k) => remove_matches match_len k r
          | _ => String c (remove_matches match_len 0 r)
          end
      end
  end.

(** Length of the match of [/<think>[\s\S]*?<\/think>/] at the head of
    [s]: the lazy star stops at the first closing tag. *)
Definition match_think (s : string) : option nat :=
  match strip_prefix "<think>" s with
  | Some rest =>
      match indexOf rest "</think>" with
      | Some i => Some (7 + i + 8)
      | None => None
      end
  | None => None
  end.

(** Length of the match of [/!\[[^\]]*]\([^)]+\)/] at the head of [s].
    Either class excludes the delimiter that follows it, so the greedy
    runs end at the first "]" and the first ")". *)
Definition match_md_image (s : string) : option nat :=
  match strip_prefix "![" s with
  | Some rest =>
      let n1 := span_length (fun c => negb (Ascii.eqb c "]")) rest in
      match strip_prefix "](" (drop n1 rest) with
      | Some rest2 =>
          let n2 := span_length (fun c => negb (Ascii.eqb c ")")) rest2 in
          match n2, drop n2 rest2 with
          | S _, String _ _ => Some (2 + n1 + 2 + n2 + 1)
          | _, _ => None
          end
      | None => None
      end
  | None => None
  end.

(** [s.replace(/\r\n/g, '\n')] *)
Fixpoint replace_crlf (s : string) : string :=
  match s with
  | "" => ""
  | String c r =>
      match r with
      | String d r' =>
          if Ascii.eqb c "013" && Ascii.eqb d "010"
          then String "010" (replace_crlf r')
          else String c (replace_crlf r)
      | "" => String c ""
      end
  end.

End JsString.

(** ** Signature cache (lines 6-59) *)
Module SignatureCache.
Import JsString.

(** The payload stored by [registerTextThoughtSignature]. *)
Record entry := Entry { signature : string; text : string }.

Global Instance entry_eq_dec : EqDecision entry.
Proof. solve_decision. Defined.

(** [thoughtSignatureMap], keyed by tool-call id. *)
Definition registerThoughtSignature (id thoughtSignature : string)
           (m : gmap string string) : gmap string string :=
  if is_empty id || is_empty thoughtSignature then m
  else <[id := thoughtSignature]> m.

Definition getThoughtSignature (m : gmap string string) (id : string)
  : option string :=
  if is_empty id then None else m !! id.

Definition normalizeTextForSignature (text : string) : string :=
  trim
    (replace_crlf
       (remove_matches match_md_image 0
          (remove_matches match_think 0 text))).

(** [textThoughtSignatureMap]; [text] and [thoughtSignature] are strings
    here, so [String(text)] is [text]. *)
Definition registerTextThoughtSignature (text thoughtSignature : string)
           (m : gmap string entry) : gmap string entry :=
  if is_empty text || is_empty thoughtSignature then m
  else
    let originalText := text in
    let trimmed := trim originalText in
    let normalized := normalizeTextForSignature trimmed in
    let payload := Entry thoughtSignature originalText in
    let m1 :=
      if negb (is_empty originalText) then <[originalText := payload]> m
      else m in
    let m2 :=
      if negb (is_empty normalized) then <[normalized := payload]> m1
      else m1 in
    if negb (is_empty trimmed) && negb (bool_decide (trimmed = normalized))
    then <[trimmed := payload]> m2
    else m2.

Definition getTextThoughtSignature (m : gmap string entry) (text : string)
  : option entry :=
  if is_empty (trim text) then None
  else
    match m !! text with
    | Some e => Some e
    | None =>
        let trimmed := trim text in
        match m !! trimmed with
        | Some e => Some e
        | None =>
            let normalized := normalizeTextForSignature trimmed in
            if is_empty normalized then None else m !! normalized
        end
    end.

(** The keys one registration writes (those that are not empty). *)
Definition stored_keys (t : string) : list string :=
  [t; trim t; normalizeTextForSignature (trim t)].

End SignatureCache.

(** ** JSON-like values of the chat turns *)
Module Json.
Import JsString.

(** Numbers: the source never computes with them, it only tests them
    ([Number.isInteger], [Number.isNaN], truthiness) and prints them.
    [NOther] is a number that is neither an integer nor NaN, with its
    rendering. *)
Inductive number :=
| NInt (z : Z)
| NOther (repr : string)
| NNaN.

Global Instance number_eq_dec : EqDecision number.
Proof. solve_decision. Defined.

Definition number_to_string (n : number) : string :=
  match n with
  | NInt z => NilZero.string_of_int (Z.to_int z)
  | NOther repr => repr
  | NNaN => "NaN"
  end.

Definition number_truthy (n : number) : bool :=
  match n with
  | NInt z => negb (z =? 0)%Z
  | NOther _ => true
  | NNaN => false
  end.

Inductive json :=
| JUndefined
| JNull
| JBool (b : bool)
| JNum (n : number)
| JStr (s : string)
| JArr (elems : list json)
| JObj (fields : list (string * json)).

Definition truthy (v : json) : bool :=
  match v with
  | JUndefined | JNull => false
  | JBool b => b
  | JNum n => number_truthy n
  | JStr s => negb (is_empty s)
  | JArr _ | JObj _ => true
  end.

Definition is_nullish (v : json) : bool :=
  match v with JUndefined | JNull => true | _ => false end.

(** [typeof v === 'object' && v !== null] *)
Definition is_object (v : json) : bool :=
  match v with JArr _ | JObj _ => true | _ => false end.

Definition is_array (v : json) : bool :=
  match v with JArr _ => true | _ => false end.

Definition is_string (v : json) : bool :=
  match v with JStr _ => true | _ => false end.

(** [v === s] for a string literal [s]. *)
Definition is_str (v : json) (s : string) : bool :=
  match v with JStr s' => String.eqb s' s | _ => false end.

Fixpoint assoc {A} (k : string) (l : list (string * A)) : option A :=
  match l with
  | [] => None
  | (k', v) :: l' => if String.eqb k k' then Some v else assoc k l'
  end.

(** [v.k] for a name [k] no prototype defines: [None] is the TypeError
    of reading a property of [null] or [undefined]. *)
Definition prop (v : json) (k : string) : option json :=
  match v with
  | JUndefined | JNull => None
  | JObj fields => Some (default JUndefined (assoc k fields))
  | _ => Some JUndefined
  end.

(** [v?.k] *)
Definition opt_prop (v : json) (k : string) : json :=
  default JUndefined (prop v k).

Fixpoint join (sep : string) (l : list string) : string :=
  match l with
  | [] => ""
  | [x] => x
  | x :: l' => x +:+ sep +:+ join sep l'
  end.

(** [String(v)], also the conversion of [+=] and of [Array.prototype.join]
    (objects without a [toString] of their own). *)
Fixpoint to_string (v : json) : string :=
  match v with
  | JUndefined => "undefined"
  | JNull => "null"
  | JBool true => "true"
  | JBool false => "false"
  | JNum n => number_to_string n
  | JStr s => s
  | JArr elems =>
      join "," (map (fun e => if is_nullish e then "" else to_string e) elems)
  | JObj _ => "[object Object]"
  end.

(** The element conversion of [Array.prototype.join]. *)
Definition join_item (v : json) : string :=
  if is_nullish v then "" else to_string v.

End Json.

(** ** Message converter (lines 61-171 and 711-789) *)
Module Converter.
Import JsString Json SignatureCache.

Inductive outcome (A : Type) :=
| Ok (a : A)
| TypeError.
Arguments Ok {A} a.
Arguments TypeError {A}.

Definition bind {A B} (x : outcome A) (f : A -> outcome B) : outcome B :=
  match x with Ok a => f a | TypeError => TypeError end.

Notation "'let*' x ':=' c1 'in' c2" := (bind c1 (fun x => c2))
  (at level 10, x name, c1 at level 100, c2 at level 200).

Definition of_option {A} (o : option A) : outcome A :=
  match o with Some a => Ok a | None => TypeError end.

Fixpoint mapM {A B} (f : A -> outcome B) (l : list A) : outcome (list B) :=
  match l with
  | [] => Ok []
  | x :: l' => let* y := f x in let* ys := mapM f l' in Ok (y :: ys)
  end.

(** A chat turn.  [tool_calls] is the list under [message.tool_calls]
    (empty when the field is absent); each call carries [id],
    [function.name] and [function.arguments]. *)
Record tool_call := ToolCall {
  tc_id : string;
  tc_name : string;
  tc_arguments : json }.

Record message := Message {
  role : string;
  content : json;
  tool_calls : list tool_call;
  tool_call_id : string }.

(** The parts of a backend turn. *)
Inductive part :=
| TextPart (text : string) (thoughtSignature : option string)
| InlineData (mimeType data : string)
| FunctionCall (id name : string) (args : json)
               (thoughtSignature : option string)
| FunctionResponse (id name : string) (output : json).

Record turn := Turn { turn_role : string; parts : list part }.

Definition is_functionResponse (p : part) : bool :=
  match p with FunctionResponse _ _ _ => true | _ => false end.

(** [lastMessage.parts.push(...ps)] on the last element of the array. *)
Definition push_to_last (out : list turn) (ps : list part) : list turn :=
  match last out with
  | Some l => removelast out ++ [Turn (turn_role l) (parts l ++ ps)]
  | None => out
  end.

Definition is_word_char (c : ascii) : bool :=
  let n := nat_of_ascii c in
  ((48 <=? n) && (n <=? 57)) || ((65 <=? n) && (n <=? 90))
  || ((97 <=? n) && (n <=? 122)) || (n =? 95).

(** [.] of a regular expression without the [s] flag. *)
Definition is_not_newline (c : ascii) : bool :=
  negb (Ascii.eqb c "010" || Ascii.eqb c "013").

Fixpoint take (n : nat) (s : string) : string :=
  match n, s with
  | S k, String c r => String c (take k r)
  | _, _ => ""
  end.

(** [imageUrl.match(/^data:image\/(\w+);base64,(.+)$/)]: the two
    groups. *)
Definition match_data_url (imageUrl : string) : option (string * string) :=
  match strip_prefix "data:image/" imageUrl with
  | Some rest =>
      let n := span_length is_word_char rest in
      match n, strip_prefix ";base64," (JsString.drop n rest) with
      | S _, Some data =>
          if negb (is_empty data)
             && (span_length is_not_newline data =? String.length data)
          then Some (take n rest, data)
          else None
      | _, _ => None
      end
  | None => None
  end.

(** [extractImagesFromContent] *)
Definition extract_item (acc : string * list part) (item : json)
  : outcome (string * list part) :=
  let* ty := of_option (prop item "type") in
  if is_str ty "text" then
    Ok (acc.1 +:+ to_string (opt_prop item "text"), acc.2)
  else if is_str ty "image_url" then
    let url := opt_prop (opt_prop item "image_url") "url" in
    let imageUrl := if truthy url then url else JStr "" in
    match imageUrl with
    | JStr u =>
        match match_data_url u with
        | Some (format, base64Data) =>
            Ok (acc.1, acc.2 ++ [InlineData ("image/" +:+ format) base64Data])
        | None => Ok acc
        end
    | _ => TypeError
    end
  else Ok acc.

Fixpoint foldM {A B} (f : A -> B -> outcome A) (a : A) (l : list B)
  : outcome A :=
  match l with
  | [] => Ok a
  | x :: l' => let* a' := f a x in foldM f a' l'
  end.

Definition extractImagesFromContent (content : json)
  : outcome (string * list part) :=
  match content with
  | JStr s => Ok (s, [])
  | JArr items => foldM extract_item ("", []) items
  | _ => Ok ("", [])
  end.

Definition handleUserMessage (extracted : string * list part)
           (antigravityMessages : list turn) : list turn :=
  antigravityMessages
    ++ [Turn "user" (TextPart extracted.1 None :: extracted.2)].

Section WithJSON.
(** [JSON.parse] ([None] when it throws a SyntaxError) and
    [JSON.stringify] belong to the host. *)
Variable JSON_parse : string -> option json.
Variable JSON_stringify : json -> json.

(** The inner loop of [handleToolCall]: the name of the first
    function-call part of a turn whose id is [id]. *)
Fixpoint find_call_name (id : string) (ps : list part) : string :=
  match ps with
  | [] => ""
  | FunctionCall id' name _ _ :: ps' =>
      if String.eqb id' id then name else find_call_name id ps'
  | _ :: ps' => find_call_name id ps'
  end.

(** The outer loop, over the turns from the last one backwards. *)
Fixpoint lookback (id : string) (backwards : list turn) : string :=
  match backwards with
  | [] => ""
  | t :: earlier =>
      if String.eqb (turn_role t) "model" then
        let functionName := find_call_name id (parts t) in
        if negb (is_empty functionName) then functionName
        else lookback id earlier
      else lookback id earlier
  end.

Definition or_else (a b : json) : json := if truthy a then a else b.

(** The normalisation of [message.content] in [handleToolCall]. *)
Definition tool_output (output : json) : json :=
  if is_object output then
    or_else (opt_prop output "text") (JSON_stringify output)
  else if is_array output then
    match output with
    | JArr items =>
        let textItem :=
          default JUndefined
            (find (fun item => is_str (opt_prop item "type") "text"
                               || is_string item) items) in
        or_else (opt_prop textItem "text")
                (or_else textItem (JSON_stringify output))
    | _ => output
    end
  else output.

Definition handleToolCall (message : message)
           (antigravityMessages : list turn) : list turn :=
  let functionName :=
    lookback (tool_call_id message) (rev antigravityMessages) in
  let output := tool_output (content message) in
  let lastMessage := last antigravityMessages in
  let functionResponse :=
    FunctionResponse (tool_call_id message) functionName output in
  match lastMessage with
  | Some l =>
      if String.eqb (turn_role l) "user"
         && existsb is_functionResponse (parts l)
      then push_to_last antigravityMessages [functionResponse]
      else antigravityMessages ++ [Turn "user" [functionResponse]]
  | None => antigravityMessages ++ [Turn "user" [functionResponse]]
  end.

(** The text of an assistant turn (lines 719-729). *)
Definition assistant_text (content : json) : outcome string :=
  if truthy content then
    match content with
    | JArr items =>
        let* tagged :=
          mapM (fun item =>
                  let* ty := of_option (prop item "type") in
                  Ok (is_str ty "text", item)) items in
        let texts :=
          map (fun p : bool * json =>
                 or_else (opt_prop p.2 "text") (JStr ""))
              (List.filter (fun p : bool * json => p.1) tagged) in
        Ok (String.concat "" (map join_item texts))
    | JStr s => Ok s
    | _ => Ok ""
    end
  else Ok "".

(** One element of [message.tool_calls.map(...)] (lines 733-759). *)
Definition convert_tool_call (thoughtSignatureMap : gmap string string)
           (toolCall : tool_call) : part :=
  let args :=
    match tc_arguments toolCall with
    | JStr a =>
        match JSON_parse a with
        | Some v => v
        | None => JObj []
        end
    | JArr _ | JObj _ | JNull => tc_arguments toolCall
    | _ => JObj []
    end in
  let thoughtSignature :=
    getThoughtSignature thoughtSignatureMap (tc_id toolCall) in
  FunctionCall (tc_id toolCall) (tc_name toolCall) args
    (match thoughtSignature with
     | Some sig => if negb (is_empty sig) then Some sig else None
     | None => None
     end).

(** [handleAssistantMessage] (the definition at lines 713-789). *)
Definition handleAssistantMessage
           (thoughtSignatureMap : gmap string string)
           (textThoughtSignatureMap : gmap string entry)
           (message : message) (antigravityMessages : list turn)
           (modelName : string) : outcome (list turn) :=
  let lastMessage := last antigravityMessages in
  let hasToolCalls := negb (length (tool_calls message) =? 0) in
  let allowThoughtSignature := includes modelName "gemini-3" in
  let* contentText := assistant_text (content message) in
  let hasContent := negb (is_empty (trim contentText)) in
  let antigravityTools :=
    if hasToolCalls
    then map (convert_tool_call thoughtSignatureMap) (tool_calls message)
    else [] in
  let last_is_model :=
    match lastMessage with
    | Some l => String.eqb (turn_role l) "model"
    | None => false
    end in
  if last_is_model && hasToolCalls && negb hasContent then
    Ok (push_to_last antigravityMessages antigravityTools)
  else
    let parts :=
      if hasContent then
        let textThoughtSignature :=
          if allowThoughtSignature
          then getTextThoughtSignature textThoughtSignatureMap contentText
          else None in
        let textPart_text :=
          match textThoughtSignature with
          | Some e => text e
          | None => contentText
          end in
        let textPart_signature :=
          match textThoughtSignature with
          | Some e =>
              if allowThoughtSignature && negb (is_empty (signature e))
              then Some (signature e) else None
          | None => None
          end in
        [TextPart textPart_text textPart_signature]
      else [] in
    Ok (antigravityMessages ++ [Turn "model" (parts ++ antigravityTools)]).

(** [openaiMessageToAntigravity]: the loop body, then the loop. *)
Definition convert_message
           (thoughtSignatureMap : gmap string string)
           (textThoughtSignatureMap : gmap string entry)
           (modelName : string)
           (antigravityMessages : list turn) (message : message)
  : outcome (list turn) :=
  if String.eqb (role message) "user" then
    let* extracted := extractImagesFromContent (content message) in
    Ok (handleUserMessage extracted antigravityMessages)
  else if String.eqb (role message) "assistant" then
    handleAssistantMessage thoughtSignatureMap textThoughtSignatureMap
                           message antigravityMessages modelName
  else if String.eqb (role message) "tool" then
    Ok (handleToolCall message antigravityMessages)
  else Ok antigravityMessages.

Definition openaiMessageToAntigravity
           (thoughtSignatureMap : gmap string string)
           (textThoughtSignatureMap : gmap string entry)
           (openaiMessages : list message) (modelName : string)
  : outcome (list turn) :=
  foldM (convert_message thoughtSignatureMap textThoughtSignatureMap
                         modelName)
        [] openaiMessages.

(** The function-response part [handleToolCall] builds. *)
Definition response_part (message : message) (out : list turn) : part :=
  FunctionResponse (tool_call_id message)
                   (lookback (tool_call_id message) (rev out))
                   (tool_output (content message)).

End WithJSON.

(** The text part [handleAssistantMessage] builds for the text
    [contentText]. *)
Definition text_part (tm : gmap string entry) (modelName contentText : string)
  : part :=
  let found :=
    if includes modelName "gemini-3"
    then getTextThoughtSignature tm contentText else None in
  match found with
  | Some e =>
      TextPart (text e)
               (if negb (is_empty (signature e)) then Some (signature e)
                else None)
  | None => TextPart contentText None
  end.


End Converter.

(** ** Request assembler: [generateGenerationConfig] (lines 172-195) *)
Module Assembler.
Import JsString Json.

(** The request parameters and [config.defaults]; a field that is absent
    is [JUndefined]. *)
Record parameters := Parameters {
  top_p : json;
  top_k : json;
  temperature : json;
  max_tokens : json }.

Record thinkingConfig := ThinkingConfig {
  includeThoughts : bool;
  thinkingBudget : Z }.

Record generationConfig := GenerationConfig {
  topP : option json;
  topK : json;
  gc_temperature : json;
  candidateCount : Z;
  maxOutputTokens : json;
  stopSequences : list string;
  gc_thinkingConfig : thinkingConfig }.

(** [a ?? b] *)
Definition nullish_or (a b : json) : json := if is_nullish a then b else a.

Section WithConfig.
(** [config.defaults], loaded by [../config/config.js]. *)
Variable config_defaults : parameters.

Definition generateGenerationConfig (parameters : parameters)
           (enableThinking : bool) (actualModelName : string)
  : generationConfig :=
  let generationConfig :=
    {| topP := Some (nullish_or (top_p parameters) (top_p config_defaults));
       topK := nullish_or (top_k parameters) (top_k config_defaults);
       gc_temperature :=
         nullish_or (temperature parameters) (temperature config_defaults);
       candidateCount := 1;
       maxOutputTokens :=
         nullish_or (max_tokens parameters) (max_tokens config_defaults);
       stopSequences :=
         [ "<|user|>";
           "<|bot|>";
           "<|context_request|>";
           "<|endoftext|>";
           "<|end_of_turn|>" ];
       gc_thinkingConfig :=
         {| includeThoughts := enableThinking;
            thinkingBudget := if enableThinking then 1024 else 0 |} |} in
  if enableThinking && includes actualModelName "claude" then
    {| topP := None;
       topK := topK generationConfig;
       gc_temperature := gc_temperature generationConfig;
       candidateCount := candidateCount generationConfig;
       maxOutputTokens := maxOutputTokens generationConfig;
       stopSequences := stopSequences generationConfig;
       gc_thinkingConfig := gc_thinkingConfig generationConfig |}
  else generationConfig.

End WithConfig.

End Assembler.

(** ** Schema sanitizer (lines 239-554)

    [cleanJsonSchema] tells objects apart by reference (the [WeakSet] of
    visited objects), so schemas live in an arena: a value is a primitive
    or a reference to a cell, and a cell is a plain object (its own
    properties, in enumeration order) or an array.  A cyclic schema is an
    arena whose cells refer back to one another.  Objects the sanitizer
    builds are allocated at the end of the arena.  Two objects of the host
    are values as well, because [mapUnknownType] can return them: the
    function [Object] and the object [Object.prototype]. *)
Module Sanitizer.
Import JsString.
Export Json (number(..), number_to_string, number_truthy, assoc).

Definition addr := nat.

Inductive value :=
| VUndefined
| VNull
| VBool (b : bool)
| VNum (n : number)
| VStr (s : string)
| VRef (a : addr)
| VObject
| VObjectPrototype.

Global Instance value_eq_dec : EqDecision value.
Proof. solve_decision. Defined.

Definition fields := list (string * value).

Inductive cell :=
| Obj (fs : fields)
| Arr (elems : list value).

Record state := State {
  heap : list cell;
  visited : gset addr }.

(** Results: a value and the state reached, a thrown TypeError, an input
    outside the modelled fragment of JavaScript (a dangling reference, an
    object that redefines [toString], [Object.prototype] itself as a
    schema node), or recursion deeper than the fuel. *)
Inductive outcome (A : Type) :=
| Done (a : A) (s : state)
| TypeError
| Unmodelled
| OutOfFuel.
Arguments Done {A} a s.
Arguments TypeError {A}.
Arguments Unmodelled {A}.
Arguments OutOfFuel {A}.

Definition M (A : Type) := state -> outcome A.

Definition ret {A} (a : A) : M A := fun s => Done a s.

Definition bind {A B} (m : M A) (f : A -> M B) : M B :=
  fun s =>
    match m s with
    | Done a s' => f a s'
    | TypeError => TypeError
    | Unmodelled => Unmodelled
    | OutOfFuel => OutOfFuel
    end.

Notation "'let*' x ':=' c1 'in' c2" := (bind c1 (fun x => c2))
  (at level 10, x name, c1 at level 100, c2 at level 200).

Definition throw {A} : M A := fun _ => TypeError.
Definition unmodelled {A} : M A := fun _ => Unmodelled.
Definition out_of_fuel {A} : M A := fun _ => OutOfFuel.

(** A new object or array. *)
Definition alloc (c : cell) : M value :=
  fun s => Done (VRef (length (heap s))) (State (heap s ++ [c]) (visited s)).

Definition deref (a : addr) : M cell :=
  fun s =>
    match heap s !! a with
    | Some c => Done c s
    | None => Unmodelled
    end.

(** [visited.has(obj)] and [visited.add(obj)] *)
Definition visited_has (a : addr) : M bool :=
  fun s => Done (bool_decide (a ∈ visited s)) s.

Definition visited_add (a : addr) : M unit :=
  fun s => Done tt (State (heap s) ({[a]} ∪ visited s)).

Fixpoint mapM {A B} (f : A -> M B) (l : list A) : M (list B) :=
  match l with
  | [] => ret []
  | x :: l' => let* y := f x in let* ys := mapM f l' in ret (y :: ys)
  end.

Fixpoint foldM {A B} (f : A -> B -> M A) (a : A) (l : list B) : M A :=
  match l with
  | [] => ret a
  | x :: l' => let* a' := f a x in foldM f a' l'
  end.

(** *** Primitive operations on values *)

Definition truthy (v : value) : bool :=
  match v with
  | VUndefined | VNull => false
  | VBool b => b
  | VNum n => number_truthy n
  | VStr s => negb (is_empty s)
  | VRef _ | VObject | VObjectPrototype => true
  end.

Definition is_nullish (v : value) : bool :=
  match v with VUndefined | VNull => true | _ => false end.

(** [typeof v === 'object']; [typeof Object] is ['function']. *)
Definition typeof_object (v : value) : bool :=
  match v with VNull | VRef _ | VObjectPrototype => true | _ => false end.

(** [v === s] for a string literal [s]. *)
Definition is_str (v : value) (s : string) : bool :=
  match v with VStr s' => String.eqb s' s | _ => false end.

(** [Array.isArray(v)] *)
Definition isArray (v : value) : M bool :=
  match v with
  | VRef a =>
      let* c := deref a in
      ret (match c with Arr _ => true | Obj _ => false end)
  | _ => ret false
  end.

(** Own properties of a plain object under construction. *)
Definition get_field (k : string) (fs : fields) : value :=
  default VUndefined (assoc k fs).

Definition has_field (k : string) (fs : fields) : bool :=
  match assoc k fs with Some _ => true | None => false end.

Fixpoint set_field (k : string) (v : value) (fs : fields) : fields :=
  match fs with
  | [] => [(k, v)]
  | (k', v') :: fs' =>
      if String.eqb k k' then (k, v) :: fs'
      else (k', v') :: set_field k v fs'
  end.

Definition delete_field (k : string) (fs : fields) : fields :=
  List.filter (fun kv : string * value => negb (String.eqb k kv.1)) fs.

Definition index_key (i : nat) : string :=
  NilZero.string_of_uint (Nat.to_uint i).

(** [Object.entries(v)] of an object or an array. *)
Definition entries (c : cell) : fields :=
  match c with
  | Obj fs => fs
  | Arr elems => imap (fun i v => (index_key i, v)) elems
  end.

(** [v.k] where [v] is an object or an array and [k] a name that
    neither [Object.prototype] nor [Array.prototype] defines. *)
Definition get (v : value) (k : string) : M value :=
  match v with
  | VRef a =>
      let* c := deref a in
      ret (match c with
           | Obj fs => get_field k fs
           | Arr _ => VUndefined
           end)
  | VUndefined | VNull => throw
  | _ => ret VUndefined
  end.

(** The elements of an array value. *)
Definition elements (v : value) : M (list value) :=
  match v with
  | VRef a =>
      let* c := deref a in
      match c with
      | Arr elems => ret elems
      | Obj _ => throw
      end
  | _ => throw
  end.

(** [String(v)] and the conversion inside a template literal.  An
    object prints through [Object.prototype.toString] unless it has a
    [toString] or [valueOf] of its own; arrays (which print their
    elements) are left out. *)
Definition js_String (v : value) : M string :=
  match v with
  | VUndefined => ret "undefined"
  | VNull => ret "null"
  | VBool true => ret "true"
  | VBool false => ret "false"
  | VNum n => ret (number_to_string n)
  | VStr s => ret s
  | VRef a =>
      let* c := deref a in
      match c with
      | Obj fs =>
          if has_field "toString" fs || has_field "valueOf" fs
          then unmodelled else ret "[object Object]"
      | Arr _ => unmodelled
      end
  | VObject => ret "function Object() { [native code] }"
  | VObjectPrototype => ret "[object Object]"
  end.

(** A JavaScript [Set] in insertion order. *)
Definition set_add (v : value) (l : list value) : list value :=
  if bool_decide (v ∈ l) then l else l ++ [v].

Definition set_has (v : value) (l : list value) : bool :=
  bool_decide (v ∈ l).

(** *** The helpers at lines 514-554 *)

Definition isValidEnumValue (value : value) : bool :=
  match value with
  | VNull | VUndefined => false
  | VStr s => negb (is_empty (trim s))
  | _ => true
  end.

Definition inferType (value : value) : M string :=
  match value with
  | VNull => ret "string"
  | VBool _ => ret "boolean"
  | VNum (NInt _) => ret "integer"
  | VNum _ => ret "number"
  | VRef a =>
      let* c := deref a in
      ret (match c with Arr _ => "array" | Obj _ => "object" end)
  | VObjectPrototype => ret "object"
  | _ => ret "string"
  end.

Definition typeMap : list (string * string) :=
  [ ("int", "integer");
    ("float", "number");
    ("double", "number");
    ("bool", "boolean");
    ("str", "string");
    ("list", "array");
    ("dict", "object");
    ("map", "object");
    ("any", "string");
    ("null", "string") ].

(** The lower-case names [typeMap] inherits from [Object.prototype]:
    [typeMap.constructor] is the function [Object] and [typeMap.__proto__]
    is [Object.prototype]. *)
Definition inherited_names : list string := ["constructor"; "__proto__"].

(** [typeMap[key]] for a key in lower case: of the names [typeMap]
    inherits, those two are the only ones written in lower case. *)
Definition typeMap_get (key : string) : value :=
  if String.eqb key "constructor" then VObject
  else if String.eqb key "__proto__" then VObjectPrototype
  else match assoc key typeMap with
       | Some t => VStr t
       | None => VUndefined
       end.

Definition mapUnknownType (type : value) : M value :=
  match type with
  | VUndefined | VNull => ret (VStr "string")
  | VStr s =>
      let found := typeMap_get (toLowerCase s) in
      ret (if truthy found then found else VStr "string")
  | _ => throw
  end.

Definition SUPPORTED_KEYS : list string :=
  [ "type"; "properties"; "items"; "required"; "description"; "enum";
    "nullable"; "format"; "minimum"; "maximum"; "minItems"; "maxItems" ].

Definition VALID_TYPES : list string :=
  [ "string"; "number"; "integer"; "boolean"; "array"; "object" ].

(** [VALID_TYPES.has(t)] *)
Definition valid_type (t : value) : bool :=
  match t with
  | VStr s => bool_decide (s ∈ VALID_TYPES)
  | _ => false
  end.

Definition circular_marker : cell :=
  Obj [("type", VStr "object"); ("description", VStr "[Circular Reference]")].

(** *** [cleanObject] (lines 284-509)

    The body is written over the recursive call, which [cleanObject]
    below supplies with one unit of fuel less. *)
Section Body.
Variable cleanObject : value -> M value.

(** Lines 298-302: arrays. *)
Definition clean_array (elems : list value) : M value :=
  let* mapped :=
    mapM (fun item =>
            if typeof_object item && negb (is_nullish item)
            then cleanObject item else ret item) elems in
  alloc (Arr (List.filter (fun item => negb (is_nullish item)) mapped)).

(** [if (obj.description) cleaned.description = String(obj.description)] *)
Definition copy_description (obj : fields) (cleaned : fields) : M fields :=
  let description := get_field "description" obj in
  if truthy description then
    let* d := js_String description in
    ret (set_field "description" (VStr d) cleaned)
  else ret cleaned.

(** [target.hasOwnProperty(r)] where [target] is a plain object. *)
Definition hasOwnProperty (target : fields) (r : value) : M bool :=
  if has_field "hasOwnProperty" target then throw
  else match r with
       | VStr k => ret (has_field k target)
       | _ => unmodelled
       end.

Fixpoint filterM {A} (f : A -> M bool) (l : list A) : M (list A) :=
  match l with
  | [] => ret []
  | x :: l' =>
      let* b := f x in
      let* r := filterM f l' in
      ret (if b then x :: r else r)
  end.

(** [Object.assign(target, source)] for plain objects without a
    [__proto__] key. *)
Definition assign (target source : fields) : M fields :=
  if has_field "__proto__" source then unmodelled
  else ret (fold_left (fun t kv => set_field kv.1 kv.2 t) source target).

(** The accumulators of the union loop (lines 325-329). *)
Record merged := Merged {
  mergedProperties : fields;
  mergedRequired : list value;
  mergedEnum : list value;
  mergedTypes : list value;
  hasProps : bool }.

(** One iteration of the loop over [options] (lines 331-357). *)
Definition merge_option (unionKey : string) (acc : merged)
           (option : value) : M merged :=
  let* cleanedOption := cleanObject option in
  if negb (truthy cleanedOption) then ret acc
  else
    let* type := get cleanedOption "type" in
    let types :=
      if truthy type then set_add type (mergedTypes acc)
      else mergedTypes acc in
    let* properties := get cleanedOption "properties" in
    let* props :=
      match properties with
      | VRef a =>
          let* c := deref a in
          let* merged := assign (mergedProperties acc) (entries c) in
          ret (merged, true)
      | _ => ret (mergedProperties acc, hasProps acc)
      end in
    let* required := get cleanedOption "required" in
    let* required_is_array := isArray required in
    let* requireds :=
      if String.eqb unionKey "allOf" && required_is_array then
        let* rs := elements required in
        ret (fold_left (fun acc r => set_add r acc) rs (mergedRequired acc))
      else ret (mergedRequired acc) in
    let* enum := get cleanedOption "enum" in
    let* enum_is_array := isArray enum in
    let* enums :=
      if enum_is_array then
        let* vs := elements enum in
        ret (fold_left
               (fun acc v => if isValidEnumValue v then set_add v acc else acc)
               vs (mergedEnum acc))
      else ret (mergedEnum acc) in
    ret (Merged props.1 requireds enums types props.2).

(** Lines 316-391: a union node; [union] is [obj[unionKey]]. *)
Definition clean_union (obj : fields) (unionKey : string)
           (union : list value) : M value :=
  let options :=
    List.filter (fun opt => truthy opt && typeof_object opt) union in
  match options with
  | [] =>
      let description := get_field "description" obj in
      alloc (Obj [("type", VStr "string");
                  ("description",
                   if truthy description then description else VStr "")])
  | first :: _ =>
      let* m := foldM (merge_option unionKey) (Merged [] [] [] [] false)
                      options in
      let* built :=
        if hasProps m then
          let* properties := alloc (Obj (mergedProperties m)) in
          let cleaned :=
            [("type", VStr "object"); ("properties", properties)] in
          if 0 <? length (mergedRequired m) then
            let* validRequired :=
              filterM (hasOwnProperty (mergedProperties m))
                      (mergedRequired m) in
            if 0 <? length validRequired then
              let* required := alloc (Arr validRequired) in
              ret (Some (set_field "required" required cleaned))
            else ret (Some cleaned)
          else ret (Some cleaned)
        else if 0 <? length (mergedEnum m) then
          let* enum := alloc (Arr (mergedEnum m)) in
          ret (Some [("type", VStr "string"); ("enum", enum)])
        else if length (mergedTypes m) =? 1 then
          ret (Some [("type", default VUndefined (head (mergedTypes m)))])
        else if 1 <? length (mergedTypes m) then
          if set_has (VStr "string") (mergedTypes m) then
            ret (Some [("type", VStr "string")])
          else if set_has (VStr "object") (mergedTypes m) then
            ret (Some [("type", VStr "object")])
          else
            ret (Some [("type", default VUndefined (head (mergedTypes m)))])
        else ret None in
      match built with
      | Some cleaned =>
          let* cleaned := copy_description obj cleaned in
          alloc (Obj cleaned)
      | None => cleanObject first
      end
  end.

(** Lines 393-404: [const]. *)
Definition clean_const (obj : fields) (const : value) : M value :=
  let* type := inferType const in
  let cleaned := [("type", VStr type)] in
  if negb (isValidEnumValue const) then
    let* cleaned := copy_description obj cleaned in
    alloc (Obj cleaned)
  else
    let* enum := alloc (Arr [const]) in
    let cleaned := set_field "enum" enum cleaned in
    let* cleaned := copy_description obj cleaned in
    alloc (Obj cleaned).

(** Lines 406-426: the [type] field. *)
Definition resolve_type (obj : fields) (cleaned : fields) : M fields :=
  let type := get_field "type" obj in
  if truthy type then
    let* type_is_array := isArray type in
    if type_is_array then
      let* ts := elements type in
      let validTypes := List.filter valid_type ts in
      match validTypes with
      | [] => ret (set_field "type" (VStr "string") cleaned)
      | t0 :: _ =>
          if bool_decide (VStr "null" ∈ validTypes) then
            let found :=
              find (fun t => negb (is_str t "null")) validTypes in
            let t :=
              match found with
              | Some t => if truthy t then t else VStr "string"
              | None => VStr "string"
              end in
            ret (set_field "nullable" (VBool true)
                   (set_field "type" t cleaned))
          else ret (set_field "type" t0 cleaned)
      end
    else if valid_type type then ret (set_field "type" type cleaned)
    else
      let* t := mapUnknownType type in
      ret (set_field "type" t cleaned)
  else ret cleaned.

(** Lines 433-444: the value of [properties]. *)
Definition clean_property (cleanProps : fields) (entry : string * value)
  : M fields :=
  let '(pKey, pValue) := entry in
  if negb (is_empty pKey) then
    let* cleanedProp := cleanObject pValue in
    if truthy cleanedProp then
      if String.eqb pKey "__proto__" then unmodelled
      else ret (set_field pKey cleanedProp cleanProps)
    else ret cleanProps
  else ret cleanProps.

Definition supportedFormats : list string :=
  ["date-time"; "date"; "time"; "email"; "uri"; "uuid"].

(** One iteration of the loop over [Object.entries(obj)]
    (lines 429-477). *)
Definition filter_field (cleaned : fields) (entry : string * value)
  : M fields :=
  let '(key, value) := entry in
  if negb (bool_decide (key ∈ SUPPORTED_KEYS)) || String.eqb key "type"
  then ret cleaned
  else
    let* value_is_array := isArray value in
    if String.eqb key "properties" && typeof_object value
       && negb (is_nullish value) then
      match value with
      | VRef a =>
          let* c := deref a in
          let* cleanProps := foldM clean_property [] (entries c) in
          if 0 <? length cleanProps then
            let* properties := alloc (Obj cleanProps) in
            ret (set_field "properties" properties cleaned)
          else ret cleaned
      | _ => ret cleaned
      end
    else if String.eqb key "items" && typeof_object value then
      let* cleanedItems := cleanObject value in
      if truthy cleanedItems
      then ret (set_field "items" cleanedItems cleaned)
      else ret cleaned
    else if String.eqb key "enum" && value_is_array then
      let* vs := elements value in
      let filteredEnum := List.filter isValidEnumValue vs in
      if 0 <? length filteredEnum then
        let* enum := alloc (Arr filteredEnum) in
        ret (set_field "enum" enum cleaned)
      else ret cleaned
    else if String.eqb key "required" && value_is_array then
      let* vs := elements value in
      let* pending :=
        alloc (Arr (List.filter
                      (fun r => match r with
                                | VStr s => negb (is_empty (trim s))
                                | _ => false
                                end) vs)) in
      ret (set_field "_pendingRequired" pending cleaned)
    else if String.eqb key "description" then
      match value with
      | VStr d =>
          if truthy value then ret (set_field "description" value cleaned)
          else ret cleaned
      | _ =>
          if truthy value then
            let* d := js_String value in
            ret (set_field "description" (VStr d) cleaned)
          else ret cleaned
      end
    else if String.eqb key "nullable" then
      ret (set_field "nullable" (VBool (truthy value)) cleaned)
    else if bool_decide
              (key ∈ ["minimum"; "maximum"; "minItems"; "maxItems"]) then
      match value with
      | VNum NNaN => ret cleaned
      | VNum _ => ret (set_field key value cleaned)
      | _ => ret cleaned
      end
    else if String.eqb key "format" then
      match value with
      | VStr f =>
          if bool_decide (f ∈ supportedFormats)
          then ret (set_field "format" value cleaned)
          else ret cleaned
      | _ => ret cleaned
      end
    else ret cleaned.

(** Lines 479-488: [required] against the final [properties]. *)
Definition validate_required (cleaned : fields) : M fields :=
  let pending := get_field "_pendingRequired" cleaned in
  let properties := get_field "properties" cleaned in
  let* cleaned :=
    if truthy pending && truthy properties then
      let* rs := elements pending in
      let* props := match properties with
                    | VRef a => deref a
                    | _ => unmodelled
                    end in
      let* validRequired := filterM (hasOwnProperty (entries props)) rs in
      if 0 <? length validRequired then
        let* required := alloc (Arr validRequired) in
        ret (set_field "required" required cleaned)
      else ret cleaned
    else ret cleaned in
  ret (delete_field "_pendingRequired" cleaned).

(** Lines 490-496: type back-fill. *)
Definition backfill_type (cleaned : fields) : M fields :=
  if negb (truthy (get_field "type" cleaned)) then
    if truthy (get_field "properties" cleaned) then
      ret (set_field "type" (VStr "object") cleaned)
    else if truthy (get_field "items" cleaned) then
      ret (set_field "type" (VStr "array") cleaned)
    else if truthy (get_field "enum" cleaned) then
      let* vs := elements (get_field "enum" cleaned) in
      let* t := inferType (default VUndefined (head vs)) in
      ret (set_field "type" (VStr t) cleaned)
    else ret (set_field "type" (VStr "string") cleaned)
  else ret cleaned.

(** Lines 498-506: consistency of [items] and [properties] with the
    type. *)
Definition check_consistency (cleaned : fields) : M fields :=
  let* cleaned :=
    if is_str (get_field "type" cleaned) "array"
       && negb (truthy (get_field "items" cleaned)) then
      let* items := alloc (Obj [("type", VStr "string")]) in
      ret (set_field "items" items cleaned)
    else ret cleaned in
  if is_str (get_field "type" cleaned) "object"
     && negb (truthy (get_field "properties" cleaned)) then
    let* properties := alloc (Obj []) in
    ret (set_field "properties" properties cleaned)
  else ret cleaned.

(** Lines 308-508: a plain object. *)
Definition clean_plain (obj : fields) : M value :=
  let ref := get_field "$ref" obj in
  if truthy ref then
    let* r := js_String ref in
    alloc (Obj [("type", VStr "object");
                ("description", VStr ("Reference: " +:+ r))])
  else
    let* unionKey :=
      foldM (fun found key =>
               match found with
               | Some _ => ret found
               | None =>
                   let v := get_field key obj in
                   let* is_array := isArray v in
                   ret (if truthy v && is_array then Some key else None)
               end)
            None ["anyOf"; "oneOf"; "allOf"] in
    match unionKey with
    | Some unionKey =>
        let* union := elements (get_field unionKey obj) in
        clean_union obj unionKey union
    | None =>
        let const := get_field "const" obj in
        if negb (bool_decide (const = VUndefined)) then
          clean_const obj const
        else
          let* cleaned := resolve_type obj [] in
          let* cleaned := foldM filter_field cleaned obj in
          let* cleaned := validate_required cleaned in
          let* cleaned := backfill_type cleaned in
          let* cleaned := check_consistency cleaned in
          alloc (Obj cleaned)
    end.

(** [Object.prototype] itself as a node is left out: [visited] holds
    cells of the arena only. *)
Definition cleanObject_body (obj : value) : M value :=
  if is_nullish obj then ret VNull
  else
    match obj with
    | VRef a =>
        let* seen := visited_has a in
        if seen then alloc circular_marker
        else
          let* c := deref a in
          match c with
          | Arr elems => clean_array elems
          | Obj fs =>
              let* _ := visited_add a in
              clean_plain fs
          end
    | VObjectPrototype => unmodelled
    | _ => ret obj
    end.

End Body.

Fixpoint cleanObject (fuel : nat) (obj : value) : M value :=
  match fuel with
  | 0 => out_of_fuel
  | S fuel' => cleanObject_body (cleanObject fuel') obj
  end.

(** [cleanJsonSchema(schema, visited)]: the state carries the [visited]
    argument.  [Object.prototype] as the root gives the marker like every
    other object, at line 261 or at line 291; the state does not record
    that it was visited. *)
Definition cleanJsonSchema_in (fuel : nat) (schema : value) : M value :=
  if negb (truthy schema) || negb (typeof_object schema) then ret schema
  else
    match schema with
    | VRef a =>
        let* seen := visited_has a in
        if seen then alloc circular_marker
        else
          let* _ := visited_add a in
          cleanObject fuel schema
    | VObjectPrototype => alloc circular_marker
    | _ => ret schema
    end.

(** [cleanJsonSchema(schema)], with the default [new WeakSet()]. *)
Definition cleanJsonSchema (fuel : nat) (schema : value) (h : list cell)
  : outcome value :=
  cleanJsonSchema_in fuel schema (State h ∅).

(** The JSON text of a value: the tree read off the arena, [None] when
    it is deeper than [depth] or a reference dangles. *)
Fixpoint snapshot (depth : nat) (h : list cell) (v : value)
  : option Json.json :=
  match depth with
  | 0 => None
  | S d =>
      match v with
      | VUndefined => Some Json.JUndefined
      | VNull => Some Json.JNull
      | VBool b => Some (Json.JBool b)
      | VNum n => Some (Json.JNum n)
      | VStr s => Some (Json.JStr s)
      | VRef a =>
          match h !! a with
          | Some (Obj fs) =>
              Json.JObj <$>
                list.mapM (fun kv : string * value =>
                                   pair kv.1 <$> snapshot d h kv.2) fs
          | Some (Arr elems) =>
              Json.JArr <$> list.mapM (snapshot d h) elems
          | None => None
          end
      | VObject => Some Json.JUndefined
      | VObjectPrototype => Some (Json.JObj [])
      end
  end.

(** The result of a run as JSON text. *)
Definition result_json (depth : nat) (r : outcome value)
  : option Json.json :=
  match r with
  | Done v s => snapshot depth (heap s) v
  | _ => None
  end.

(** [cleanJsonSchema(cleanJsonSchema(schema))]: the second call reads its
    argument in the arena the first one left. *)
Definition cleanJsonSchema_twice (fuel : nat) (schema : value) (h : list cell)
  : outcome value :=
  match cleanJsonSchema fuel schema h with
  | Done r s => cleanJsonSchema fuel r (heap s)
  | TypeError => TypeError
  | Unmodelled => Unmodelled
  | OutOfFuel => OutOfFuel
  end.




(** [{type: ["string", "null"]}] *)
Definition nullable_string_schema : list cell :=
  [ Obj [("type", VRef 1)];
    Arr [VStr "string"; VStr "null"] ].

(** [s = {type: "object", properties: {self: s}}]: the property [self]
    refers to its own container. *)
Definition self_referencing_schema : list cell :=
  [ Obj [("type", VStr "object"); ("properties", VRef 1)];
    Obj [("self", VRef 0)] ].

(** [{type: "array", description: "tags"}] *)
Definition tags_schema : list cell :=
  [ Obj [("type", VStr "array"); ("description", VStr "tags")] ].

End Sanitizer.

(** ** Sample inputs used to evaluate the embedding *)
Module Samples.
Import Json SignatureCache Converter.

(** Stand-ins for [JSON.parse] and [JSON.stringify] in runs that call
    neither: the tool-call arguments below are structured and the tool
    results are strings. *)
Definition parse_nothing : string -> option json := fun _ => None.
Definition stringify_nothing : json -> json := fun _ => JUndefined.

Definition hello_cache : gmap string entry :=
  registerTextThoughtSignature "Hello " "sig" ∅.

Definition id_cache : gmap string string :=
  registerThoughtSignature "call_1" "sig_1" ∅.

Definition weather_call : tool_call :=
  ToolCall "call_1" "get_weather" (JObj [("city", JStr "Paris")]).

Definition time_call : tool_call :=
  ToolCall "call_2" "get_time" (JObj []).

Definition user_asks : message :=
  Message "user" (JStr "Weather and time in Paris?") [] "".

Definition assistant_calls : message :=
  Message "assistant" JNull [weather_call; time_call] "".

Definition assistant_says_and_calls : message :=
  Message "assistant" (JStr "Let me check.") [weather_call; time_call] "".

Definition assistant_hello : message :=
  Message "assistant" (JStr "Hello") [] "".

Definition weather_result : message :=
  Message "tool" (JStr "sunny") [] "call_1".

Definition time_result : message :=
  Message "tool" (JStr "noon") [] "call_2".

Definition model_spoke : turn :=
  Turn "model" [TextPart "Let me check." None].

Definition example_defaults : Assembler.parameters :=
  Assembler.Parameters (JNum (NOther "0.85")) (JNum (NInt 50)) (JNum (NInt 1))
             (JNum (NInt 8096)).

Definition no_parameters : Assembler.parameters :=
  Assembler.Parameters JUndefined JUndefined JUndefined JUndefined.

End Samples.

(** ** [sanitizeFunctionName] (lines 223-237) *)
Module Names.
Import JsString Json.

Definition is_digit (c : ascii) : bool :=
  let n := nat_of_ascii c in (48 <=? n) && (n <=? 57).

(** [name.replace(/[^a-zA-Z0-9_]/g, '_')] *)
Fixpoint replace_illegal (s : string) : string :=
  match s with
  | String c r =>
      String (if Converter.is_word_char c then c else "_"%char)
             (replace_illegal r)
  | "" => ""
  end.

(** [/^[0-9]/.test(s)] *)
Definition starts_with_digit (s : string) : bool :=
  match s with
  | String c _ => is_digit c
  | "" => false
  end.

Definition sanitizeFunctionName (name : json) : string :=
  match name with
  | JStr n =>
      if is_empty n then "unknown_function"
      else
        let sanitized := replace_illegal n in
        let sanitized :=
          if starts_with_digit sanitized then "fn_" +:+ sanitized
          else sanitized in
        if is_empty sanitized then "unknown_function" else sanitized
  | _ => "unknown_function"
  end.

(** A name the backend accepts: letters, digits and underscores, not
    starting with a digit, not empty. *)
Fixpoint all_word_chars (s : string) : bool :=
  match s with
  | String c r => Converter.is_word_char c && all_word_chars r
  | "" => true
  end.

Definition valid_name (s : string) : bool :=
  negb (is_empty s) && all_word_chars s && negb (starts_with_digit s).

End Names.

(** ** [getDefaultIp] (lines 648-664)

    [os.networkInterfaces()] is the argument: the entries under [WLAN]
    and [wlan2], [None] when the key is absent. *)
Module Network.

Record interface := Interface {
  family : string;
  internal : bool;
  address : string }.

Record interfaces := Interfaces {
  WLAN : option (list interface);
  wlan2 : option (list interface) }.

Definition external_IPv4 (inter : interface) : bool :=
  String.eqb (family inter) "IPv4" && negb (internal inter).

Definition getDefaultIp (interfaces : interfaces) : string :=
  match WLAN interfaces with
  | Some inters =>
      match find external_IPv4 inters with
      | Some inter => address inter
      | None => "127.0.0.1"
      end
  | None =>
      match wlan2 interfaces with
      | Some inters =>
          match find external_IPv4 inters with
          | Some inter => address inter
          | None => "127.0.0.1"
          end
      | None => "127.0.0.1"
      end
  end.

End Network.

(** ** [convertOpenAIToolsToAntigravity] (lines 196-221)

    The tools live in the arena of the sanitizer.  A tool carries what the
    source reads through [tool.function?.]: [VUndefined] where the field,
    or [function] itself, is absent. *)
Module Tools.
Import JsString Sanitizer.

Record tool := Tool {
  fn_name : value;
  fn_description : value;
  fn_parameters : value }.

(** The single element of [functionDeclarations]. *)
Record declaration := Declaration {
  decl_name : value;
  decl_description : value;
  decl_parameters : value }.

(** [{ ...v }]: a new object with the own enumerable properties of [v]. *)
Definition spread (v : value) : M value :=
  match v with
  | VRef a => let* c := deref a in alloc (Obj (entries c))
  | VStr s =>
      alloc (Obj (imap (fun i c => (index_key i, VStr (String c "")))
                       (list_ascii_of_string s)))
  | _ => alloc (Obj [])
  end.

(** [cleanJsonSchema(parameters)] inside a run: a [WeakSet] of its own, the
    arena shared. *)
Definition clean_in_arena (fuel : nat) (schema : value) : M value :=
  fun st =>
    match cleanJsonSchema fuel schema (heap st) with
    | Done v s => Done v (State (heap s) (visited st))
    | TypeError => TypeError
    | Unmodelled => Unmodelled
    | OutOfFuel => OutOfFuel
    end.

(** The callback of [openaiTools.map]. *)
Definition convert_tool (fuel : nat) (tool : tool) : M declaration :=
  let* parameters :=
    if truthy (fn_parameters tool) then spread (fn_parameters tool)
    else alloc (Obj []) in
  let* cleanedParameters := clean_in_arena fuel parameters in
  let name :=
    if truthy (fn_name tool) then fn_name tool
    else VStr "unknown_function" in
  let description :=
    if truthy (fn_description tool) then fn_description tool else VStr "" in
  ret (Declaration name description cleanedParameters).

(** [openaiTools] is [None] when the argument is [undefined] or [null]. *)
Definition convertOpenAIToolsToAntigravity (fuel : nat)
           (openaiTools : option (list tool)) : M (list declaration) :=
  match openaiTools with
  | None => ret []
  | Some tools =>
      if length tools =? 0 then ret [] else mapM (convert_tool fuel) tools
  end.

(** The references a tool holds point into the arena. *)
Definition tool_in_arena (h : list cell) (t : tool) : Prop :=
  ∀ a, fn_parameters t = VRef a → a < length h.

(** A state reached from another one: the cells that existed are
    unchanged and the visited set has not shrunk. *)
Definition extends (st st' : state) : Prop :=
  heap st `prefix_of` heap st' ∧ visited st ⊆ visited st'.

(** A computation that only allocates and marks. *)
Definition grows {A} (m : M A) : Prop :=
  ∀ st a st', m st = Done a st' → extends st st'.

(** The own keys of an object. *)
Definition keys (fs : fields) : list string := map fst fs.

End Tools.

(** ** [generateRequestBody] and [generateRequestBodyFromGemini]
    (lines 556-709) *)
Module RequestBody.
Import JsString Json SignatureCache Converter Assembler.

(** [s.endsWith(suffix)] *)
Definition endsWith (s suffix : string) : bool :=
  startsWith (String.rev s) (String.rev suffix).

(** The test both entry points apply to the model name. *)
Definition baseEnableThinking (modelName : string) : bool :=
  endsWith modelName "-thinking"
  || String.eqb modelName "gemini-2.5-pro"
  || startsWith modelName "gemini-3-pro-"
  || String.eqb modelName "rev19-uic3-1p"
  || String.eqb modelName "gpt-oss-120b-medium".

(** The callback of the [map] at lines 567-573. *)
Definition system_text (content : json) : outcome string :=
  match content with
  | JStr s => Ok s
  | JArr items =>
      let* texts :=
        mapM (fun c =>
                let* t := of_option (prop c "text") in
                Ok (or_else t (JStr ""))) items in
      Ok (String.concat "" (map join_item texts))
  | _ => Ok ""
  end.

(** [l.filter(Boolean).join(sep)] on strings. *)
Definition join_nonempty (sep : string) (l : list string) : string :=
  String.concat sep (List.filter (fun s => negb (is_empty s)) l).

Definition is_system (msg : message) : bool := String.eqb (role msg) "system".

(** [delete part.thoughtSignature] *)
Definition strip_signature (p : part) : part :=
  match p with
  | TextPart t _ => TextPart t None
  | FunctionCall id name args _ => FunctionCall id name args None
  | _ => p
  end.

Definition strip_signatures (contents : list turn) : list turn :=
  map (fun msg => Turn (turn_role msg) (map strip_signature (parts msg)))
      contents.

Record token := Token { projectId : json; sessionId : json }.

(** Outcomes of the assembler: those of the converter and of the
    sanitizer together. *)
Inductive result (A : Type) :=
| Built (a : A)
| Thrown
| NotModelled
| Exhausted.
Arguments Built {A} a.
Arguments Thrown {A}.
Arguments NotModelled {A}.
Arguments Exhausted {A}.

Record requestBody := RequestBody {
  rb_project : json;
  rb_requestId : string;
  rb_contents : list turn;
  rb_systemInstruction_role : string;
  rb_systemInstruction_text : string;
  rb_tools : list Tools.declaration;
  rb_arena : list Sanitizer.cell;
  rb_toolConfig_mode : string;
  rb_generationConfig : generationConfig;
  rb_sessionId : json;
  rb_model : string;
  rb_userAgent : string }.

Section WithHost.
(** The host and the collaborators: [JSON.parse], [JSON.stringify],
    [config.defaults], [config.systemInstruction] and the id
    [generateRequestId()] returns. *)
Variable JSON_parse : string -> option json.
Variable JSON_stringify : json -> json.
Variable config_defaults : parameters.
Variable config_systemInstruction : string.
Variable fresh_requestId : string.

(** Step 1 of [generateRequestBody]: the merged system instruction. *)
Definition systemContent (openaiMessages : list message) : outcome string :=
  let* texts :=
    mapM (fun msg => system_text (content msg))
         (List.filter is_system openaiMessages) in
  Ok (join_nonempty (String "010" (String "010" "")) texts).

Definition finalSystemInstruction (systemContent : string) : string :=
  join_nonempty (String "010" (String "010" ""))
                [config_systemInstruction; systemContent].

(** Step 3: an assistant turn with tool calls is in the history. *)
Definition hasAssistantToolCalls (conversationMessages : list message)
  : bool :=
  existsb (fun msg => String.eqb (role msg) "assistant"
                      && (0 <? length (tool_calls msg)))
          conversationMessages.

(** Step 4. *)
Definition enableThinking (modelName : string)
           (conversationMessages : list message) : bool :=
  baseEnableThinking modelName
  && negb (includes modelName "claude"
           && hasAssistantToolCalls conversationMessages).

(** Steps 5 and 6: the contents, without thought signatures for Claude. *)
Definition request_contents (thoughtSignatureMap : gmap string string)
           (textThoughtSignatureMap : gmap string entry)
           (openaiMessages : list message) (modelName : string)
  : outcome (list turn) :=
  let conversationMessages :=
    List.filter (fun msg => negb (is_system msg)) openaiMessages in
  let* contents :=
    openaiMessageToAntigravity JSON_parse JSON_stringify thoughtSignatureMap
                               textThoughtSignatureMap conversationMessages
                               modelName in
  Ok (if includes modelName "claude" then strip_signatures contents
      else contents).

Definition generateRequestBody (thoughtSignatureMap : gmap string string)
           (textThoughtSignatureMap : gmap string entry)
           (fuel : nat) (arena : list Sanitizer.cell)
           (openaiMessages : list message) (modelName : string)
           (parameters : parameters)
           (openaiTools : option (list Tools.tool)) (token : token)
  : result requestBody :=
  let actualModelName := modelName in
  match systemContent openaiMessages with
  | TypeError => Thrown
  | Ok systemContent =>
      let finalSystemInstruction := finalSystemInstruction systemContent in
      let conversationMessages :=
        List.filter (fun msg => negb (is_system msg)) openaiMessages in
      let enableThinking := enableThinking modelName conversationMessages in
      match request_contents thoughtSignatureMap textThoughtSignatureMap
                             openaiMessages actualModelName with
      | TypeError => Thrown
      | Ok contents =>
          match Tools.convertOpenAIToolsToAntigravity fuel openaiTools
                  (Sanitizer.State arena ∅) with
          | Sanitizer.Done tools st =>
              Built
                {| rb_project := projectId token;
                   rb_requestId := fresh_requestId;
                   rb_contents := contents;
                   rb_systemInstruction_role := "user";
                   rb_systemInstruction_text :=
                     if negb (is_empty finalSystemInstruction)
                     then finalSystemInstruction
                     else "You are a helpful assistant.";
                   rb_tools := tools;
                   rb_arena := Sanitizer.heap st;
                   rb_toolConfig_mode := "VALIDATED";
                   rb_generationConfig :=
                     generateGenerationConfig config_defaults parameters
                                              enableThinking actualModelName;
                   rb_sessionId := sessionId token;
                   rb_model := actualModelName;
                   rb_userAgent := "antigravity" |}
          | Sanitizer.TypeError => Thrown
          | Sanitizer.Unmodelled => NotModelled
          | Sanitizer.OutOfFuel => Exhausted
          end
      end
  end.

(** The request of [generateRequestBodyFromGemini]; [generationConfig] is
    the caller's when it is truthy. *)
Record nativeRequest := NativeRequest {
  nr_contents : list json;
  nr_systemInstruction : json;
  nr_tools : json;
  nr_toolConfig : json;
  nr_safetySettings : json;
  nr_generationConfig : json + generationConfig;
  nr_sessionId : json }.

Record nativeBody := NativeBody {
  nb_project : json;
  nb_requestId : string;
  nb_request : nativeRequest;
  nb_model : string;
  nb_userAgent : string }.

Definition no_parameters : parameters :=
  Parameters JUndefined JUndefined JUndefined JUndefined.

Definition generateRequestBodyFromGemini (geminiRequest : json)
           (modelName : string) (token : token) : nativeBody :=
  let actualModelName := modelName in
  let enableThinking :=
    baseEnableThinking actualModelName
    && negb (includes actualModelName "claude") in
  let contents :=
    match opt_prop geminiRequest "contents" with
    | JArr l => l
    | _ => []
    end in
  let systemInstruction :=
    let given := opt_prop geminiRequest "systemInstruction" in
    if truthy given && is_object given then given
    else JObj [("role", JStr "user");
               ("parts",
                JArr [JObj [("text", JStr config_systemInstruction)]])] in
  let request :=
    {| nr_contents := contents;
       nr_systemInstruction := systemInstruction;
       nr_tools :=
         match opt_prop geminiRequest "tools" with
         | JArr l => JArr l
         | _ => JUndefined
         end;
       nr_toolConfig := opt_prop geminiRequest "toolConfig";
       nr_safetySettings := opt_prop geminiRequest "safetySettings";
       nr_generationConfig :=
         let given := opt_prop geminiRequest "generationConfig" in
         if truthy given then inl given
         else inr (generateGenerationConfig config_defaults no_parameters
                                            enableThinking actualModelName);
       nr_sessionId := sessionId token |} in
  {| nb_project := projectId token;
     nb_requestId := fresh_requestId;
     nb_request := request;
     nb_model := actualModelName;
     nb_userAgent := "antigravity" |}.

End WithHost.

End RequestBody.

(** ** A sample request *)
Module RequestSamples.
Import Json Converter Samples RequestBody.

Definition sample_token : token := Token (JStr "project-1") (JStr "session-1").

Definition system_says : message :=
  Message "system" (JStr "Be concise.") [] "".

Definition sample_history : list message :=
  [system_says; user_asks; assistant_calls; weather_result; time_result].

(** The body for [sample_history] with the instruction "Be helpful."
    configured, no request parameters and no tools. *)
Definition sample_body (modelName : string) : result requestBody :=
  generateRequestBody parse_nothing stringify_nothing example_defaults
                      "Be helpful." "req-1" id_cache ∅ 1 [] sample_history
                      modelName Samples.no_parameters None sample_token.

End RequestSamples.

(** ** Predicates on sanitized nodes *)
Module SchemaInvariants.
Import Sanitizer Tools.

(** Only keys of the whitelist. *)
Definition whitelisted (fs : fields) : Prop :=
  Forall (fun k => k ∈ SUPPORTED_KEYS) (keys fs).

(** The same, while [_pendingRequired] may still be there. *)
Definition staged (fs : fields) : Prop :=
  Forall (fun k => k ∈ SUPPORTED_KEYS ∨ k = "_pendingRequired") (keys fs).

(** A computation whose result, when it is an object, is whitelisted. *)
Definition returns_whitelisted (m : M value) : Prop :=
  ∀ st v st', m st = Done v st' →
  ∀ r fs, v = VRef r → heap st' !! r = Some (Obj fs) → whitelisted fs.

(** Every name under [required] is an own key of the node's
    [properties]. *)
Definition required_within_properties (h : list cell) (fs : fields) : Prop :=
  ∀ r rs,
    get_field "required" fs = VRef r → h !! r = Some (Arr rs) →
    ∃ p props,
      get_field "properties" fs = VRef p ∧ h !! p = Some props
      ∧ Forall (fun x => ∃ k, x = VStr k ∧ has_field k (entries props) = true)
               rs.

(** [{type: "object", title: "Point", properties: {x: {type: "int"}},
    required: ["x", "y"], additionalProperties: false}] *)
Definition point_schema : list cell :=
  [ Obj [("type", VStr "object"); ("title", VStr "Point");
         ("properties", VRef 1); ("required", VRef 3);
         ("additionalProperties", VBool false)];
    Obj [("x", VRef 2)];
    Obj [("type", VStr "int")];
    Arr [VStr "x"; VStr "y"] ].


End SchemaInvariants.

(** ** Predicates the properties are stated with *)
Module Invariants.
Import JsString Json SignatureCache Converter.

(** What every cache built by [registerTextThoughtSignature] satisfies:
    keys, signatures and texts are not empty, and an entry sits under a
    key derived from its own text. *)
Definition cache_ok (m : gmap string entry) : Prop :=
  ∀ k e, m !! k = Some e →
         k ≠ "" ∧ signature e ≠ "" ∧ text e ≠ "" ∧ k ∈ stored_keys (text e).

Fixpoint forall_chars (p : ascii -> bool) (s : string) : bool :=
  match s with
  | String c r => p c && forall_chars p r
  | "" => true
  end.

(** A backend turn is a user turn or a model turn. *)
Definition backend_role (t : turn) : Prop :=
  turn_role t = "user" ∨ turn_role t = "model".

Definition has_signature (p : part) : bool :=
  match p with
  | TextPart _ (Some _) | FunctionCall _ _ _ (Some _) => true
  | _ => false
  end.

Definition is_functionCall (p : part) : bool :=
  match p with FunctionCall _ _ _ _ => true | _ => false end.

Definition text_item (t : string) : json :=
  JObj [("type", JStr "text"); ("text", JStr t)].

Definition image_item (url : string) : json :=
  JObj [("type", JStr "image_url"); ("image_url", JObj [("url", JStr url)])].

Definition data_url (format data : string) : string :=
  "data:image/" +:+ format +:+ ";base64," +:+ data.

Definition total_parts (out : list turn) : nat :=
  list_sum (map (fun t => length (parts t)) out).

End Invariants.

(** * Properties *)

(** ** Strings *)
Section StringFacts.
Import JsString.

Lemma trimEnd_idem s : trimEnd (trimEnd s) = trimEnd s.
Proof.
  induction s as [|c r IH]; simpl; [done|].
  destruct (is_white c && is_empty (trimEnd r)) eqn:E; simpl; [done|].
  by rewrite IH, E.
Qed.

Lemma trimStart_head s :
  trimStart s = "" ∨ ∃ c r, trimStart s = String c r ∧ is_white c = false.
Proof.
  induction s as [|c r IH]; simpl; [by left|].
  destruct (is_white c) eqn:E; [done|]. right. by exists c, r.
Qed.

Lemma trimEnd_black c r :
  is_white c = false → trimEnd (String c r) = String c (trimEnd r).
Proof. intros E. simpl. by rewrite E. Qed.

Lemma trimStart_black c r :
  is_white c = false → trimStart (String c r) = String c r.
Proof. intros E. simpl. by rewrite E. Qed.

Lemma trim_idem s : trim (trim s) = trim s.
Proof.
  unfold trim. destruct (trimStart_head s) as [->|(c & r & -> & E)]; [done|].
  rewrite (trimEnd_black c r) by done.
  rewrite (trimStart_black c (trimEnd r)) by done.
  rewrite (trimEnd_black c (trimEnd r)) by done.
  by rewrite trimEnd_idem.
Qed.

Lemma is_empty_true s : is_empty s = true ↔ s = "".
Proof. by destruct s. Qed.

Lemma is_empty_false s : is_empty s = false ↔ s ≠ "".
Proof. by destruct s. Qed.

Lemma trim_nonempty s : trim s ≠ "" → s ≠ "".
Proof. by intros H ->. Qed.

End StringFacts.

Example trim_example :
  JsString.trim ("  Hello " +:+ String "013" (String "010" " ")) = "Hello".
Proof. reflexivity. Qed.

Example normalize_example :
  SignatureCache.normalizeTextForSignature
    ("<think>a<think>b</think>Hi ![x](u) ![](v) ![y]() there"
       +:+ String "013" (String "010" "</think> ")) =
  "Hi   ![y]() there" +:+ String "010" "</think>".
Proof. vm_compute. reflexivity. Qed.

(** ** Request assembler *)
Section AssemblerFacts.
Import Json Assembler Samples.

(** C5, as stated, fails: the list the request carries for a plain
    request does not have four entries. *)
Lemma C5_stop_sequences_not_four :
  length (stopSequences
            (generateGenerationConfig example_defaults no_parameters false
                                      "gemini-2.5-pro")) ≠ 4.
Proof. vm_compute. lia. Qed.

(** C5, amended: for every input the generation config carries the same
    stop-sequence list, which has exactly five tokens. *)
Theorem C5_stop_sequences_fixed defaults params enableThinking model :
  stopSequences (generateGenerationConfig defaults params enableThinking model)
  = ["<|user|>"; "<|bot|>"; "<|context_request|>"; "<|endoftext|>";
     "<|end_of_turn|>"]
  ∧ length (stopSequences
              (generateGenerationConfig defaults params enableThinking model))
    = 5.
Proof.
  unfold generateGenerationConfig.
  by destruct (enableThinking && JsString.includes model "claude").
Qed.

End AssemblerFacts.

(** ** Signature cache *)
Section CacheFacts.
Import JsString SignatureCache.

Lemma register_unfold t s (m : gmap string entry) :
  t ≠ "" → s ≠ "" →
  registerTextThoughtSignature t s m =
  let payload := Entry s t in
  let m1 := <[t := payload]> m in
  let m2 := if negb (is_empty (normalizeTextForSignature (trim t)))
            then <[normalizeTextForSignature (trim t) := payload]> m1
            else m1 in
  if negb (is_empty (trim t))
     && negb (bool_decide (trim t = normalizeTextForSignature (trim t)))
  then <[trim t := payload]> m2 else m2.
Proof.
  intros Ht Hs. unfold registerTextThoughtSignature.
  apply is_empty_false in Ht as ->. by apply is_empty_false in Hs as ->.
Qed.

(** Every non-empty key of a registration reads back its payload. *)
Lemma register_lookup t s (m : gmap string entry) k :
  t ≠ "" → s ≠ "" → k ∈ stored_keys t → k ≠ "" →
  registerTextThoughtSignature t s m !! k = Some (Entry s t).
Proof.
  intros Ht Hs Hk Hne. rewrite register_unfold by done. cbv zeta.
  set (n := normalizeTextForSignature (trim t)).
  assert (Hcase : k = t ∨ k = trim t ∨ k = n) by set_solver.
  assert (Hn : k = n → is_empty n = false).
  { intros <-. by apply is_empty_false. }
  assert (Ht' : k = trim t → is_empty (trim t) = false).
  { intros <-. by apply is_empty_false. }
  destruct (is_empty n) eqn:En, (is_empty (trim t)) eqn:Et; simpl;
    try case_bool_decide; simpl;
    repeat (rewrite lookup_insert; case_decide; [done|]);
    naive_solver.
Qed.

Lemma get_raw (m : gmap string entry) u e :
  trim u ≠ "" → m !! u = Some e → getTextThoughtSignature m u = Some e.
Proof.
  intros Hu H. unfold getTextThoughtSignature.
  apply is_empty_false in Hu as ->. by rewrite H.
Qed.

Lemma get_trimmed (m : gmap string entry) u e :
  trim u ≠ "" → m !! u = None → m !! trim u = Some e →
  getTextThoughtSignature m u = Some e.
Proof.
  intros Hu H0 H. unfold getTextThoughtSignature.
  apply is_empty_false in Hu as ->. by rewrite H0, H.
Qed.

Lemma get_normalized (m : gmap string entry) u e :
  trim u ≠ "" → m !! u = None → m !! trim u = None →
  normalizeTextForSignature (trim u) ≠ "" →
  m !! normalizeTextForSignature (trim u) = Some e →
  getTextThoughtSignature m u = Some e.
Proof.
  intros Hu H0 H1 Hn H. unfold getTextThoughtSignature.
  apply is_empty_false in Hu as ->. rewrite H0, H1.
  by apply is_empty_false in Hn as ->.
Qed.

(** C6, as stated, fails: a text of one space is not empty, it is
    registered, and looking it up misses. *)
Lemma C6_whitespace_text_misses :
  ¬ (∀ (t s : string) (m : gmap string entry),
       t ≠ "" → s ≠ "" →
       ∃ e, getTextThoughtSignature (registerTextThoughtSignature t s m) t
            = Some e ∧ signature e = s).
Proof.
  intros H. destruct (H " " "sig" ∅) as (e & He & _); [done..|].
  vm_compute in He. discriminate.
Qed.

(** C6, amended: after [registerTextThoughtSignature t s] with [s]
    non-empty and [t] not empty or white space only, the lookup returns
    the entry of signature [s] for [t], for [t] trimmed, and for any text
    whose first hit in the order raw, trimmed, normalized is a key of
    this registration; a lookup of empty or white-space-only text always
    misses. *)
Theorem C6_text_signature_round_trip (t s : string) (m : gmap string entry) :
  trim t ≠ "" → s ≠ "" →
  let m' := registerTextThoughtSignature t s m in
  getTextThoughtSignature m' t = Some (Entry s t)
  ∧ getTextThoughtSignature m' (trim t) = Some (Entry s t)
  ∧ (∀ u, trim u ≠ "" → u ∈ stored_keys t →
          getTextThoughtSignature m' u = Some (Entry s t))
  ∧ (∀ u, trim u ≠ "" → m' !! u = None → trim u ∈ stored_keys t →
          getTextThoughtSignature m' u = Some (Entry s t))
  ∧ (∀ u, trim u ≠ "" → m' !! u = None → m' !! trim u = None →
          normalizeTextForSignature (trim u) ≠ "" →
          normalizeTextForSignature (trim u) ∈ stored_keys t →
          getTextThoughtSignature m' u = Some (Entry s t))
  ∧ (∀ (m0 : gmap string entry) u,
        trim u = "" → getTextThoughtSignature m0 u = None).
Proof.
  intros Ht Hs m'. pose proof (trim_nonempty _ Ht) as Ht0.
  assert (Hraw : ∀ u, trim u ≠ "" → u ∈ stored_keys t →
                      getTextThoughtSignature m' u = Some (Entry s t)).
  { intros u Hu Hk. apply get_raw; [done|].
    apply register_lookup; [done..|]. by apply trim_nonempty. }
  split_and!.
  - apply Hraw; [done|]. unfold stored_keys. set_solver.
  - apply Hraw; [by rewrite trim_idem|]. unfold stored_keys. set_solver.
  - done.
  - intros u Hu H0 Hk. apply get_trimmed; [done..|].
    by apply register_lookup.
  - intros u Hu H0 H1 Hn Hk. apply get_normalized; [done..|].
    by apply register_lookup.
  - intros m0 u Hu. unfold getTextThoughtSignature. by rewrite Hu.
Qed.

(** The spec's example, through the theorem: "Hello " is registered and
    found under itself, under "Hello", and under " Hello \r\n ". *)
Lemma C6_text_signature_round_trip_witness :
  let m' := registerTextThoughtSignature "Hello " "sig" ∅ in
  getTextThoughtSignature m' "Hello " = Some (Entry "sig" "Hello ")
  ∧ getTextThoughtSignature m' "Hello" = Some (Entry "sig" "Hello ")
  ∧ getTextThoughtSignature m'
      (" Hello " +:+ String "013" (String "010" " "))
    = Some (Entry "sig" "Hello ")
  ∧ getTextThoughtSignature m' "" = None.
Proof.
  destruct (C6_text_signature_round_trip "Hello " "sig" ∅)
    as (H1 & H2 & _ & H4 & _ & H6); [by vm_compute | by vm_compute |].
  split_and!.
  - exact H1.
  - exact H2.
  - apply H4; [by vm_compute | by vm_compute |].
    vm_compute. set_solver.
  - by apply H6.
Defined.

End CacheFacts.

(** ** Message converter *)
Section ConverterFacts.
Import JsString Json SignatureCache Converter.

Variable JSON_parse : string -> option json.
Variable JSON_stringify : json -> json.

Local Abbreviation handleAssistant := (handleAssistantMessage JSON_parse).
Local Abbreviation convert_call := (convert_tool_call JSON_parse).

Lemma push_to_last_snoc init l ps :
  push_to_last (init ++ [l]) ps = init ++ [Turn (turn_role l) (parts l ++ ps)].
Proof. unfold push_to_last. by rewrite last_snoc, removelast_last. Qed.

Lemma handleAssistant_with_text idm tm message out modelName contentText :
  assistant_text (content message) = Ok contentText →
  trim contentText ≠ "" →
  handleAssistant idm tm message out modelName =
  Ok (out ++ [Turn "model" (text_part tm modelName contentText
                              :: map (convert_call idm) (tool_calls message))]).
Proof.
  intros Htxt Hne. unfold handleAssistantMessage, text_part.
  rewrite Htxt. simpl. apply is_empty_false in Hne as ->. simpl.
  rewrite andb_false_r. simpl.
  assert (Htools :
    (if negb (length (tool_calls message) =? 0)
     then map (convert_call idm) (tool_calls message) else [])
    = map (convert_call idm) (tool_calls message)).
  { by destruct (tool_calls message). }
  rewrite Htools.
  destruct (includes modelName "gemini-3"); [|done].
  by destruct (getTextThoughtSignature tm contentText).
Qed.

Lemma handleAssistant_without_text idm tm message init l modelName contentText :
  assistant_text (content message) = Ok contentText →
  trim contentText = "" →
  tool_calls message ≠ [] →
  turn_role l = "model" →
  handleAssistant idm tm message (init ++ [l]) modelName =
  Ok (init ++ [Turn "model"
                 (parts l ++ map (convert_call idm) (tool_calls message))]).
Proof.
  intros Htxt He Htc Hl. unfold handleAssistantMessage.
  rewrite Htxt. simpl. rewrite He, last_snoc, Hl. simpl.
  destruct (tool_calls message) as [|tc tcs]; [done|]. simpl.
  by rewrite push_to_last_snoc, Hl.
Qed.

Lemma handleAssistant_last_model idm tm message out modelName out' :
  handleAssistant idm tm message out modelName = Ok out' →
  ∃ init l pre,
    out' = init ++ [l] ∧ turn_role l = "model"
    ∧ parts l = pre ++ map (convert_call idm) (tool_calls message).
Proof.
  unfold handleAssistantMessage.
  destruct (assistant_text (content message)) as [txt|]; [|done]. simpl.
  assert (Htools :
    (if negb (length (tool_calls message) =? 0)
     then map (convert_call idm) (tool_calls message) else [])
    = map (convert_call idm) (tool_calls message)).
  { by destruct (tool_calls message). }
  rewrite Htools. clear Htools.
  destruct (last out) as [l|] eqn:Hlast; simpl.
  - apply last_Some in Hlast as [init ->].
    destruct (String.eqb (turn_role l) "model") eqn:Hl; simpl.
    + apply String.eqb_eq in Hl.
      destruct (_ && _) eqn:Hc; intros [= <-].
      * rewrite push_to_last_snoc. eexists init, _, (parts l).
        by rewrite Hl.
      * by eexists (init ++ [l]), _, _.
    + intros [= <-]. by eexists (init ++ [l]), _, _.
  - intros [= <-]. by eexists out, _, _.
Qed.

Lemma foldM_app {A B} (f : A → B → outcome A) a l1 l2 :
  foldM f a (l1 ++ l2) = bind (foldM f a l1) (fun a' => foldM f a' l2).
Proof.
  revert a. induction l1 as [|x l1 IH]; intros a; simpl; [done|].
  destruct (f a x); simpl; [apply IH | done].
Qed.

Lemma handleToolCall_merge message init l :
  turn_role l = "user" →
  existsb is_functionResponse (parts l) = true →
  handleToolCall JSON_stringify message (init ++ [l])
  = init ++ [Turn "user"
               (parts l
                  ++ [response_part JSON_stringify message (init ++ [l])])].
Proof.
  intros Hl Hfr. unfold handleToolCall.
  by rewrite last_snoc, Hl, Hfr, push_to_last_snoc, Hl.
Qed.

Lemma handleToolCall_after_model message init l :
  turn_role l = "model" →
  handleToolCall JSON_stringify message (init ++ [l])
  = (init ++ [l])
      ++ [Turn "user" [response_part JSON_stringify message (init ++ [l])]].
Proof. intros Hl. unfold handleToolCall. by rewrite last_snoc, Hl. Qed.

Lemma lookback_skips_user id out ps :
  lookback id (rev (out ++ [Turn "user" ps])) = lookback id (rev out).
Proof. by rewrite rev_unit. Qed.

(** C8: a tool turn that follows a user turn already holding a
    function-response part is appended to that turn; hence two
    consecutive tool turns after an assistant turn become one user turn
    with their two function-response parts, in the order of the tool
    turns. *)
Theorem C8_tool_results_share_one_user_turn idm tm modelName :
  (∀ message init l,
      turn_role l = "user" →
      existsb is_functionResponse (parts l) = true →
      handleToolCall JSON_stringify message (init ++ [l])
      = init ++ [Turn "user"
                   (parts l
                      ++ [response_part JSON_stringify message
                                        (init ++ [l])])])
  ∧ (∀ earlier assistant tool1 tool2 out out1,
        role assistant = "assistant" →
        role tool1 = "tool" → role tool2 = "tool" →
        openaiMessageToAntigravity JSON_parse JSON_stringify idm tm
                                   earlier modelName = Ok out →
        handleAssistantMessage JSON_parse idm tm assistant out modelName
        = Ok out1 →
        openaiMessageToAntigravity JSON_parse JSON_stringify idm tm
          (earlier ++ [assistant; tool1; tool2]) modelName
        = Ok (out1 ++ [Turn "user" [response_part JSON_stringify tool1 out1;
                                    response_part JSON_stringify tool2 out1]])).
Proof.
  split; [intros; by apply handleToolCall_merge|].
  intros earlier assistant tool1 tool2 out out1 Ha H1 H2 Hout Hrun.
  unfold openaiMessageToAntigravity in *. rewrite foldM_app, Hout. simpl.
  unfold convert_message at 1. rewrite Ha. simpl. rewrite Hrun. simpl.
  destruct (handleAssistant_last_model _ _ _ _ _ _ Hrun)
    as (init & l & pre & -> & Hl & _).
  unfold convert_message at 1. rewrite H1. simpl.
  rewrite (handleToolCall_after_model _ _ _ Hl).
  unfold convert_message. rewrite H2. simpl.
  rewrite handleToolCall_merge by done.
  unfold response_part at 2. rewrite lookback_skips_user. done.
Qed.

(** C4, as stated, fails: with "Hello " registered, a turn whose text is
    "Hello" is sent to a gemini-3 model as "Hello ". *)
Lemma C4_cached_text_replaces_content :
  ¬ (∀ (idm : gmap string string) (tm : gmap string entry) message out
       modelName contentText,
       assistant_text (content message) = Ok contentText →
       contentText ≠ "" →
       ∃ sig tools,
         handleAssistantMessage (fun _ => None) idm tm message out modelName
         = Ok (out ++ [Turn "model" (TextPart contentText sig :: tools)])).
Proof.
  intros H.
  destruct (H ∅ (registerTextThoughtSignature "Hello " "sig" ∅)
              (Message "assistant" (JStr "Hello") [] "") []
              "gemini-3-pro-high" "Hello") as (sig & tools & Hrun);
    [done..|].
  vm_compute in Hrun. discriminate.
Qed.

(** C4, amended: for an assistant turn whose extracted text is not empty
    or white space only, the text part sent is the extracted text exactly
    whenever the model name does not contain "gemini-3" or the
    text-signature lookup misses; when the lookup hits for a "gemini-3"
    model, the text sent is the text stored in the cached entry. *)
Theorem C4_text_sent idm tm message out modelName contentText :
  assistant_text (content message) = Ok contentText →
  trim contentText ≠ "" →
  ∃ sent sig,
    handleAssistant idm tm message out modelName
    = Ok (out ++ [Turn "model" (TextPart sent sig
                                  :: map (convert_call idm) (tool_calls message))])
    ∧ (includes modelName "gemini-3" = false → sent = contentText)
    ∧ (getTextThoughtSignature tm contentText = None → sent = contentText)
    ∧ (∀ e, includes modelName "gemini-3" = true →
            getTextThoughtSignature tm contentText = Some e →
            sent = text e).
Proof.
  intros Htxt Hne.
  rewrite (handleAssistant_with_text _ _ _ _ _ _ Htxt Hne).
  unfold text_part.
  destruct (includes modelName "gemini-3") eqn:Hm;
    [destruct (getTextThoughtSignature tm contentText) as [e|] eqn:Hget|];
    eexists _, _; (split; [reflexivity|]); split_and!; try done;
    by intros ? _ [= <-].
Qed.

(** C9: an assistant turn with tool calls and empty or white-space-only
    text that follows a model turn appends its function-call parts to
    that turn; an assistant turn with text (not empty, not white space
    only) starts a new model turn: the text part, then the function-call
    parts. *)
Theorem C9_assistant_turn_merging idm tm message out modelName contentText :
  assistant_text (content message) = Ok contentText →
  (trim contentText = "" → tool_calls message ≠ [] →
   ∀ init l, out = init ++ [l] → turn_role l = "model" →
     handleAssistant idm tm message out modelName
     = Ok (init ++ [Turn "model"
                      (parts l
                         ++ map (convert_call idm) (tool_calls message))]))
  ∧ (trim contentText ≠ "" →
     ∃ sent sig,
       handleAssistant idm tm message out modelName
       = Ok (out ++ [Turn "model"
                       (TextPart sent sig
                          :: map (convert_call idm) (tool_calls message))])).
Proof.
  intros Htxt. split.
  - intros He Htc init l -> Hl.
    by apply handleAssistant_without_text with contentText.
  - intros Hne. rewrite (handleAssistant_with_text _ _ _ _ _ _ Htxt Hne).
    unfold text_part. destruct (if includes _ _ then _ else _); by eexists _, _.
Qed.

(** C10: when the model name does not contain "gemini-3", the converted
    turn is the same for any two text-signature caches and its text part
    is the extracted text without a thought signature; for every model
    name the turn ends with the converted tool calls, and a tool call
    whose id has a cached signature carries that signature. *)
Theorem C10_text_signature_only_for_gemini_3 idm message out modelName :
  includes modelName "gemini-3" = false →
  (∀ tm1 tm2,
      handleAssistant idm tm1 message out modelName
      = handleAssistant idm tm2 message out modelName)
  ∧ (∀ tm contentText,
        assistant_text (content message) = Ok contentText →
        trim contentText ≠ "" →
        handleAssistant idm tm message out modelName
        = Ok (out ++ [Turn "model"
                        (TextPart contentText None
                           :: map (convert_call idm) (tool_calls message))]))
  ∧ (∀ anyModel tm out',
        handleAssistant idm tm message out anyModel = Ok out' →
        ∃ init l pre,
          out' = init ++ [l]
          ∧ parts l = pre ++ map (convert_call idm) (tool_calls message))
  ∧ (∀ tc sig,
        tc_id tc ≠ "" → idm !! tc_id tc = Some sig → sig ≠ "" →
        ∃ args,
          convert_call idm tc
          = FunctionCall (tc_id tc) (tc_name tc) args (Some sig)).
Proof.
  intros Hm. split_and!.
  - intros tm1 tm2. unfold handleAssistantMessage. by rewrite Hm.
  - intros tm txt Htxt Hne.
    rewrite (handleAssistant_with_text _ _ _ _ _ _ Htxt Hne).
    unfold text_part. by rewrite Hm.
  - intros anyModel tm out' Hrun.
    destruct (handleAssistant_last_model _ _ _ _ _ _ Hrun)
      as (init & l & pre & -> & _ & Hparts).
    by exists init, l, pre.
  - intros tc sig Hid Hsig Hne. unfold convert_tool_call, getThoughtSignature.
    apply is_empty_false in Hid as ->. rewrite Hsig.
    apply is_empty_false in Hne as ->. simpl. by eexists.
Qed.

End ConverterFacts.

Section ConverterRuns.
Import JsString Json SignatureCache Converter Samples.

(** C4 at the cached greeting: "Hello" goes out as "Hello ". *)
Lemma C4_text_sent_witness :
  ∃ sent sig,
    handleAssistantMessage parse_nothing ∅ hello_cache assistant_hello []
                           "gemini-3-pro-high"
    = Ok [Turn "model" [TextPart sent sig]]
    ∧ sent = "Hello ".
Proof.
  destruct (C4_text_sent parse_nothing ∅ hello_cache assistant_hello []
                         "gemini-3-pro-high" "Hello")
    as (sent & sig & Hrun & _ & _ & Hhit); [reflexivity | by vm_compute |].
  exists sent, sig. split; [exact Hrun|].
  apply (Hhit (Entry "sig" "Hello ")); by vm_compute.
Defined.

(** C8 on a conversation: one question, one assistant turn with two tool
    calls, two tool results. *)
Lemma C8_tool_results_share_one_user_turn_witness :
  openaiMessageToAntigravity parse_nothing stringify_nothing id_cache ∅
    [user_asks; assistant_calls; weather_result; time_result]
    "gemini-2.5-pro"
  = Ok [ Turn "user" [TextPart "Weather and time in Paris?" None];
         Turn "model"
              [ FunctionCall "call_1" "get_weather"
                             (JObj [("city", JStr "Paris")]) (Some "sig_1");
                FunctionCall "call_2" "get_time" (JObj []) None ];
         Turn "user"
              [ FunctionResponse "call_1" "get_weather" (JStr "sunny");
                FunctionResponse "call_2" "get_time" (JStr "noon") ] ].
Proof.
  exact (proj2 (C8_tool_results_share_one_user_turn
                  parse_nothing stringify_nothing id_cache ∅ "gemini-2.5-pro")
               [user_asks] assistant_calls weather_result time_result
               _ _ eq_refl eq_refl eq_refl eq_refl eq_refl).
Defined.

(** C9 after a model turn: tool calls without text are appended to it,
    tool calls with text start a new turn. *)
Lemma C9_assistant_turn_merging_witness :
  handleAssistantMessage parse_nothing id_cache ∅ assistant_calls
                         [model_spoke] "gemini-2.5-pro"
  = Ok [Turn "model"
             [ TextPart "Let me check." None;
               FunctionCall "call_1" "get_weather"
                            (JObj [("city", JStr "Paris")]) (Some "sig_1");
               FunctionCall "call_2" "get_time" (JObj []) None ]]
  ∧ ∃ sent sig,
      handleAssistantMessage parse_nothing id_cache ∅
                             assistant_says_and_calls [model_spoke]
                             "gemini-2.5-pro"
      = Ok [ model_spoke;
             Turn "model"
                  [ TextPart sent sig;
                    FunctionCall "call_1" "get_weather"
                                 (JObj [("city", JStr "Paris")])
                                 (Some "sig_1");
                    FunctionCall "call_2" "get_time" (JObj []) None ]].
Proof.
  split.
  - exact (proj1 (C9_assistant_turn_merging parse_nothing id_cache ∅
                    assistant_calls [model_spoke] "gemini-2.5-pro" ""
                    eq_refl)
                 eq_refl ltac:(discriminate) [] model_spoke eq_refl eq_refl).
  - exact (proj2 (C9_assistant_turn_merging parse_nothing id_cache ∅
                    assistant_says_and_calls [model_spoke] "gemini-2.5-pro"
                    "Let me check." eq_refl)
                 ltac:(by vm_compute)).
Defined.

(** C10 for a model outside "gemini-3": the cached greeting is ignored,
    the cached call signature is attached. *)
Lemma C10_text_signature_only_for_gemini_3_witness :
  handleAssistantMessage parse_nothing id_cache hello_cache assistant_hello
                         [] "claude-sonnet-4-5"
  = Ok [Turn "model" [TextPart "Hello" None]]
  ∧ ∃ args,
      convert_tool_call parse_nothing id_cache weather_call
      = FunctionCall "call_1" "get_weather" args (Some "sig_1").
Proof.
  destruct (C10_text_signature_only_for_gemini_3 parse_nothing id_cache
              assistant_hello [] "claude-sonnet-4-5" eq_refl)
    as (_ & Htext & _ & Hcall).
  split.
  - apply (Htext hello_cache "Hello"); [reflexivity | by vm_compute].
  - apply (Hcall weather_call "sig_1"); by vm_compute.
Defined.

End ConverterRuns.

(** ** Schema sanitizer *)
Section SanitizerFacts.
Import JsString Sanitizer.

Lemma get_set_field_eq k v fs : get_field k (set_field k v fs) = v.
Proof.
  unfold get_field. induction fs as [|[k' v'] fs IH]; simpl.
  - by rewrite String.eqb_refl.
  - destruct (String.eqb k k') eqn:E; simpl.
    + by rewrite String.eqb_refl.
    + by rewrite E.
Qed.

Lemma get_set_field_ne k k' v fs :
  k ≠ k' → get_field k (set_field k' v fs) = get_field k fs.
Proof.
  intros Hne. unfold get_field.
  assert (E : String.eqb k k' = false) by by apply String.eqb_neq.
  induction fs as [|[k0 v0] fs IH]; simpl.
  - by rewrite E.
  - destruct (String.eqb k' k0) eqn:E0; simpl.
    + apply String.eqb_eq in E0 as <-. by rewrite E.
    + destruct (String.eqb k k0); [done | apply IH].
Qed.

Lemma get_delete_field_ne k k' fs :
  k ≠ k' → get_field k (delete_field k' fs) = get_field k fs.
Proof.
  intros Hne. unfold get_field, delete_field.
  induction fs as [|[k0 v0] fs IH]; simpl; [done|].
  destruct (String.eqb k' k0) eqn:E0; simpl.
  - apply String.eqb_eq in E0 as <-.
    by apply String.eqb_neq in Hne as ->.
  - destruct (String.eqb k k0); [done | apply IH].
Qed.

(** Inversion of a successful [bind]. *)
Lemma bind_Done {A B} (m : M A) (f : A → M B) st r st' :
  bind m f st = Done r st' →
  ∃ a s1, m st = Done a s1 ∧ f a s1 = Done r st'.
Proof. unfold bind. destruct (m st); [eauto | done..]. Qed.

Lemma ret_Done {A} (a r : A) st st' : ret a st = Done r st' → r = a ∧ st' = st.
Proof. by intros [= -> ->]. Qed.

Ltac run_step H :=
  match type of H with
  | bind _ _ _ = Done _ _ =>
      let H1 := fresh "Hrun" in
      apply bind_Done in H as (? & ? & H1 & H)
  | ret _ _ = Done _ _ => apply ret_Done in H as [-> ->]
  | throw _ = Done _ _ => discriminate H
  | unmodelled _ = Done _ _ => discriminate H
  | out_of_fuel _ = Done _ _ => discriminate H
  | (if ?b then _ else _) _ = Done _ _ => destruct b eqn:?
  | (match ?x with _ => _ end) _ = Done _ _ => destruct x eqn:?
  | (let '(_, _) := ?x in _) _ = Done _ _ => destruct x eqn:?
  end.

Lemma probe_None {A B} (m : M A) st (r : option B) s :
  bind m (fun _ => ret None) st = Done r s → r = None.
Proof. intros H. apply bind_Done in H as (? & ? & _ & H). by run_step H. Qed.

Lemma alloc_Done c st r st' :
  alloc c st = Done r st' →
  r = VRef (length (heap st)) ∧ heap st' = heap st ++ [c]
  ∧ visited st' = visited st.
Proof. by intros [= <- <-]. Qed.

(** An object argument of [cleanJsonSchema] is in [visited] before
    [cleanObject] looks at it: the result is the circular marker. *)
Lemma cleanJsonSchema_object fuel a h :
  cleanJsonSchema (S fuel) (VRef a) h
  = Done (VRef (length h)) (State (h ++ [circular_marker]) ({[a]} ∪ ∅)).
Proof.
  unfold cleanJsonSchema, cleanJsonSchema_in. simpl.
  unfold bind at 1, visited_has at 1. simpl.
  rewrite bool_decide_eq_false_2 by set_solver.
  unfold bind at 1, visited_add at 1. simpl.
  unfold cleanObject_body. simpl.
  unfold bind at 1, visited_has at 1. simpl.
  by rewrite bool_decide_eq_true_2 by set_solver.
Qed.

Lemma cleanJsonSchema_primitive fuel v h :
  (∀ a, v ≠ VRef a) → v ≠ VObjectPrototype →
  cleanJsonSchema fuel v h = Done v (State h ∅).
Proof.
  intros Hv Hp. unfold cleanJsonSchema, cleanJsonSchema_in.
  destruct v as [| | b | n | s | a | |]; try done;
    try by destruct (_ || _).
  by destruct (Hv a).
Qed.

Lemma cleanJsonSchema_prototype fuel h :
  cleanJsonSchema fuel VObjectPrototype h
  = Done (VRef (length h)) (State (h ++ [circular_marker]) ∅).
Proof. done. Qed.

Lemma snapshot_marker depth h a :
  h !! a = Some circular_marker →
  snapshot (S (S depth)) h (VRef a)
  = Some (Json.JObj [("type", Json.JStr "object");
                     ("description", Json.JStr "[Circular Reference]")]).
Proof. intros H. simpl. by rewrite H. Qed.

(** C1: sanitizing the result of the sanitizer gives the same JSON text
    as sanitizing once, for every value and every arena. *)
Theorem C1_cleanJsonSchema_idempotent fuel depth schema h :
  ∃ j,
    result_json (S (S depth)) (cleanJsonSchema (S fuel) schema h) = Some j
    ∧ result_json (S (S depth)) (cleanJsonSchema_twice (S fuel) schema h)
      = Some j.
Proof.
  unfold cleanJsonSchema_twice.
  destruct schema as [| | b | n | s | a | |];
    try (rewrite cleanJsonSchema_primitive by done; cbn [heap];
         rewrite cleanJsonSchema_primitive by done; simpl; by eexists);
    [rewrite cleanJsonSchema_object | rewrite cleanJsonSchema_prototype];
    cbn [heap]; rewrite cleanJsonSchema_object; unfold result_json;
    cbn [heap]; eexists; (split; apply snapshot_marker).
  all: try by rewrite lookup_app_r, Nat.sub_diag by lia.
  all: rewrite lookup_app_r by (rewrite length_app; simpl; lia).
  all: rewrite length_app; simpl.
  all: by replace (length h + 1 - (length h + 1)) with 0 by lia.
Qed.

Lemma null_is_not_valid_type ts : VStr "null" ∉ List.filter valid_type ts.
Proof.
  intros H. apply list_elem_of_In, filter_In in H as [_ H].
  vm_compute in H. discriminate.
Qed.

(** C3, on the code: the sanitizer answers [{type: ["string", "null"]}]
    with the circular marker, whose type is "object"; [cleanObject] on the
    same node, not yet visited, resolves the type to "string" but sets no
    [nullable], because "null" never survives the filter on the known
    types that precedes the test for it. *)
Theorem C3_null_in_type_array_is_lost :
  (∀ fuel,
      result_json 3 (cleanJsonSchema (S fuel) (VRef 0) nullable_string_schema)
      = Some (Json.JObj [("type", Json.JStr "object");
                         ("description", Json.JStr "[Circular Reference]")]))
  ∧ result_json 3 (cleanObject 3 (VRef 0) (State nullable_string_schema ∅))
    = Some (Json.JObj [("type", Json.JStr "string")])
  ∧ (∀ ts, VStr "null" ∉ List.filter valid_type ts).
Proof.
  split_and!.
  - intros fuel. by rewrite cleanJsonSchema_object.
  - by vm_compute.
  - apply null_is_not_valid_type.
Qed.

(** C7, on the code: sanitizing terminates, but it returns the circular
    marker for the root itself, for every schema and at every positive
    fuel; for the self-referencing schema the output therefore has no
    [properties] and no cycle point.  [cleanObject] on the same root, not
    yet visited, keeps the node and puts the marker under
    [properties.self]. *)
Theorem C7_cyclic_schema_collapses_to_marker :
  (∀ fuel a h,
      cleanJsonSchema (S fuel) (VRef a) h
      = Done (VRef (length h)) (State (h ++ [circular_marker]) ({[a]} ∪ ∅)))
  ∧ (∀ fuel,
        result_json 3
          (cleanJsonSchema (S fuel) (VRef 0) self_referencing_schema)
        = Some (Json.JObj [("type", Json.JStr "object");
                           ("description", Json.JStr "[Circular Reference]")]))
  ∧ result_json 4 (cleanObject 2 (VRef 0) (State self_referencing_schema ∅))
    = Some (Json.JObj
              [("type", Json.JStr "object");
               ("properties",
                Json.JObj
                  [("self",
                    Json.JObj
                      [("type", Json.JStr "object");
                       ("description", Json.JStr "[Circular Reference]")])])]).
Proof.
  split_and!.
  - apply cleanJsonSchema_object.
  - intros fuel. by rewrite cleanJsonSchema_object.
  - by vm_compute.
Qed.

(** *** The generic path of [cleanObject] *)


Lemma typeMap_valid key : default "string" (assoc key typeMap) ∈ VALID_TYPES.
Proof.
  unfold typeMap. simpl.
  repeat (destruct (String.eqb key _); [simpl; unfold VALID_TYPES; set_solver|]).
  simpl. unfold VALID_TYPES. set_solver.
Qed.

Lemma typeMap_get_valid key :
  key ∉ inherited_names →
  ∃ t, (if truthy (typeMap_get key) then typeMap_get key else VStr "string")
       = VStr t ∧ t ∈ VALID_TYPES.
Proof.
  intros Hkey. unfold typeMap_get.
  assert (String.eqb key "constructor" = false) as ->
    by (apply String.eqb_neq; intros ->; apply Hkey; by left).
  assert (String.eqb key "__proto__" = false) as ->
    by (apply String.eqb_neq; intros ->; apply Hkey; right; by left).
  unfold typeMap. simpl.
  repeat (destruct (String.eqb key _);
          [simpl; eexists; split; [done | unfold VALID_TYPES; set_solver]|]).
  simpl. eexists; split; [done | unfold VALID_TYPES; set_solver].
Qed.




Lemma inferType_valid v st t st' :
  inferType v st = Done t st' → t ∈ VALID_TYPES.
Proof.
  unfold inferType. intros H.
  destruct v as [| | b | [] | s | a | |]; repeat run_step H;
    try match goal with |- context [match ?c with Obj _ => _ | _ => _ end] =>
          destruct c
        end;
    unfold VALID_TYPES; set_solver.
Qed.




Lemma foldM_invariant {A B} (P : A → Prop) (f : A → B → M A) l :
  (∀ a x st a' st', f a x st = Done a' st' → P a → P a') →
  ∀ a st r st', foldM f a l st = Done r st' → P a → P r.
Proof.
  intros Hf. induction l as [|x l IH]; simpl; intros a st r st' H Ha.
  - by run_step H.
  - apply bind_Done in H as (a' & s1 & H1 & H). eauto.
Qed.

Section GenericPath.
Variable cleanObject' : value → M value.









End GenericPath.


Lemma cleanObject_fresh_plain fuel a obj st :
  heap st !! a = Some (Obj obj) → a ∉ visited st →
  cleanObject (S fuel) (VRef a) st
  = clean_plain (cleanObject fuel) obj (State (heap st) ({[a]} ∪ visited st)).
Proof.
  intros Hobj Ha. simpl. unfold cleanObject_body. simpl.
  unfold bind at 1, visited_has at 1.
  rewrite bool_decide_eq_false_2 by done.
  unfold bind at 1, deref at 1. by rewrite Hobj.
Qed.




(** [{type: "Constructor"}]: the type of the node built is the function
    [Object], not a type name. *)
Lemma inherited_type_name_example :
  ∃ st',
    cleanObject 1 (VRef 0) (State [Obj [("type", VStr "Constructor")]] ∅)
    = Done (VRef 1) st'
    ∧ heap st' !! 1 = Some (Obj [("type", VObject)]).
Proof. eexists. split; [by vm_compute | done]. Qed.

End SanitizerFacts.

(** ** Further properties of the signature cache *)
Section MoreCacheFacts.
Import JsString SignatureCache Invariants.

(** X1: a signature registered under an id is read back under that id,
    other ids are not affected, and a registration with an empty id or an
    empty signature changes nothing; the empty id is never found. *)
Theorem X1_id_signature_round_trip (id sig : string) (m : gmap string string) :
  (id ≠ "" → sig ≠ "" →
   getThoughtSignature (registerThoughtSignature id sig m) id = Some sig)
  ∧ (∀ id', id' ≠ id →
            getThoughtSignature (registerThoughtSignature id sig m) id'
            = getThoughtSignature m id')
  ∧ (id = "" ∨ sig = "" → registerThoughtSignature id sig m = m)
  ∧ getThoughtSignature (registerThoughtSignature id sig m) "" = None.
Proof.
  unfold getThoughtSignature, registerThoughtSignature. split_and!.
  - intros Hid Hsig. apply is_empty_false in Hid as ->.
    apply is_empty_false in Hsig as ->. simpl. apply lookup_insert_eq.
  - intros id' Hne. destruct (is_empty id || is_empty sig); [done|].
    destruct (is_empty id'); [done|]. by apply lookup_insert_ne.
  - intros [-> | ->]; [done|]. by rewrite orb_true_r.
  - done.
Qed.

Lemma X1_id_signature_round_trip_witness :
  getThoughtSignature (registerThoughtSignature "call_1" "sig_1" ∅) "call_1"
  = Some "sig_1"
  ∧ getThoughtSignature (registerThoughtSignature "call_1" "sig_1" ∅) "call_2"
    = None
  ∧ registerThoughtSignature "call_1" "" ∅ = ∅.
Proof.
  destruct (X1_id_signature_round_trip "call_1" "sig_1" ∅) as (H1 & H2 & _).
  destruct (X1_id_signature_round_trip "call_1" "" ∅) as (_ & _ & H3 & _).
  split_and!.
  - by apply H1.
  - by rewrite H2.
  - apply H3. by right.
Defined.

(** X2: a text registration writes only the keys derived from its text,
    and does nothing at all when the text or the signature is empty. *)
Theorem X2_text_registration_frame (t s : string) (m : gmap string entry) :
  (∀ k, k ∉ stored_keys t →
        registerTextThoughtSignature t s m !! k = m !! k)
  ∧ (t = "" ∨ s = "" → registerTextThoughtSignature t s m = m).
Proof.
  split.
  - intros k Hk. unfold registerTextThoughtSignature.
    destruct (is_empty t || is_empty s); [done|]. cbv zeta.
    assert (k ≠ t ∧ k ≠ trim t ∧ k ≠ normalizeTextForSignature (trim t))
      as (H1 & H2 & H3) by (unfold stored_keys in Hk; set_solver).
    repeat match goal with
           | |- context [if ?b then _ else _] => destruct b
           end;
      repeat (rewrite lookup_insert_ne by done); done.
  - unfold registerTextThoughtSignature. intros [-> | ->]; [done|].
    by rewrite orb_true_r.
Qed.

Lemma X2_text_registration_frame_witness :
  registerTextThoughtSignature "Hello " "sig" ∅ !! "Bye" = None
  ∧ registerTextThoughtSignature "Hello " "" ∅ = ∅.
Proof.
  destruct (X2_text_registration_frame "Hello " "sig" ∅) as [H1 _].
  destruct (X2_text_registration_frame "Hello " "" ∅) as [_ H2].
  split.
  - rewrite H1; [done|]. vm_compute. set_solver.
  - apply H2. by right.
Defined.

Lemma cache_ok_insert (m : gmap string entry) k e :
  cache_ok m → k ≠ "" → signature e ≠ "" → text e ≠ "" →
  k ∈ stored_keys (text e) → cache_ok (<[k := e]> m).
Proof.
  intros Hm Hk Hs Ht Hin k' e'. rewrite lookup_insert.
  case_decide as Heq; [intros [= <-]; by subst | apply Hm].
Qed.

(** X3: the empty cache satisfies [cache_ok], every registration keeps it,
    and in such a cache every hit of [getTextThoughtSignature] is an
    entry with a signature, found under a key derived from the entry's
    own text. *)
Theorem X3_text_cache_invariant :
  cache_ok ∅
  ∧ (∀ t s m, cache_ok m → cache_ok (registerTextThoughtSignature t s m))
  ∧ (∀ m u e, cache_ok m → getTextThoughtSignature m u = Some e →
              signature e ≠ "" ∧ text e ≠ ""
              ∧ (u ∈ stored_keys (text e) ∨ trim u ∈ stored_keys (text e)
                 ∨ normalizeTextForSignature (trim u) ∈ stored_keys (text e))).
Proof.
  split_and!.
  - intros k e H. by rewrite lookup_empty in H.
  - intros t s m Hm. unfold registerTextThoughtSignature.
    destruct (is_empty t) eqn:Et; [done|].
    destruct (is_empty s) eqn:Es; [done|]. cbv zeta. simpl.
    apply is_empty_false in Et, Es.
    assert (H1 : cache_ok (<[t := Entry s t]> m)).
    { apply cache_ok_insert; [done..|]. unfold stored_keys. set_solver. }
    set (n := normalizeTextForSignature (trim t)).
    assert (H2 : cache_ok (if negb (is_empty n)
                           then <[n := Entry s t]> (<[t := Entry s t]> m)
                           else <[t := Entry s t]> m)).
    { destruct (is_empty n) eqn:En; [done|]. simpl.
      apply cache_ok_insert; [done | by apply is_empty_false | done..|].
      unfold stored_keys. set_solver. }
    destruct (negb (is_empty (trim t)) && _) eqn:Ec; [|done].
    apply andb_true_iff in Ec as [Ec%negb_true_iff%is_empty_false _].
    apply cache_ok_insert; [done..|]. unfold stored_keys. set_solver.
  - intros m u e Hm. unfold getTextThoughtSignature.
    destruct (is_empty (trim u)); [done|].
    destruct (m !! u) as [e0|] eqn:H0.
    { intros [= <-]. destruct (Hm _ _ H0) as (_ & ? & ? & ?). auto. }
    destruct (m !! trim u) as [e1|] eqn:H1.
    { intros [= <-]. destruct (Hm _ _ H1) as (_ & ? & ? & ?). auto. }
    destruct (is_empty _); [done|]. intros H2.
    destruct (Hm _ _ H2) as (_ & ? & ? & ?). auto.
Qed.

Lemma X3_text_cache_invariant_witness :
  cache_ok (registerTextThoughtSignature "Hello " "sig" ∅)
  ∧ ∃ e,
      getTextThoughtSignature (registerTextThoughtSignature "Hello " "sig" ∅)
                              "Hello"
      = Some e ∧ signature e ≠ "".
Proof.
  destruct X3_text_cache_invariant as (H0 & Hreg & Hget).
  pose proof (Hreg "Hello " "sig" ∅ H0) as Hok.
  split; [exact Hok|].
  exists (Entry "sig" "Hello "). split; [by vm_compute|].
  by destruct (Hget _ "Hello" (Entry "sig" "Hello ") Hok ltac:(by vm_compute)).
Defined.

(** X4: surrounding white space does not matter to a lookup whose raw
    text is not itself a key: it gives what the lookup of the trimmed text
    gives. *)
Theorem X4_lookup_ignores_outer_whitespace (m : gmap string entry) u :
  m !! u = None →
  getTextThoughtSignature m u = getTextThoughtSignature m (trim u).
Proof.
  intros H0. unfold getTextThoughtSignature. rewrite trim_idem, H0.
  destruct (is_empty (trim u)); [done|].
  by destruct (m !! trim u).
Qed.

Lemma X4_lookup_ignores_outer_whitespace_witness :
  getTextThoughtSignature (registerTextThoughtSignature "Hello" "sig" ∅)
                          "  Hello  "
  = getTextThoughtSignature (registerTextThoughtSignature "Hello" "sig" ∅)
                            "Hello".
Proof.
  exact (X4_lookup_ignores_outer_whitespace
           (registerTextThoughtSignature "Hello" "sig" ∅) "  Hello  "
           ltac:(by vm_compute)).
Defined.

(** X5: the normalized text has no white space at its ends, but
    normalizing is not idempotent: removing one think block can put the
    two halves of another one together. *)
Theorem X5_normalization_trims_but_is_not_idempotent :
  (∀ s, trim (normalizeTextForSignature s) = normalizeTextForSignature s)
  ∧ ¬ (∀ s, normalizeTextForSignature (normalizeTextForSignature s)
            = normalizeTextForSignature s).
Proof.
  split.
  - intros s. unfold normalizeTextForSignature. apply trim_idem.
  - intros H. specialize (H "<thi<think>x</think>nk>a</think>").
    vm_compute in H. discriminate.
Qed.

End MoreCacheFacts.

(** ** Further properties of the message converter *)
Section MoreConverterFacts.
Import JsString Json SignatureCache Converter Invariants.

Variable JSON_parse : string -> option json.
Variable JSON_stringify : json -> json.

Lemma app_String c p s : String c p +:+ s = String c (p +:+ s).
Proof. reflexivity. Qed.

Lemma app_empty_l s : "" +:+ s = s.
Proof. reflexivity. Qed.

Lemma app_assoc_string a b c : (a +:+ b) +:+ c = a +:+ (b +:+ c).
Proof. induction a as [|x a IH]; [done|]. by rewrite !app_String, IH. Qed.

Lemma strip_prefix_app p s : strip_prefix p (p +:+ s) = Some s.
Proof.
  induction p as [|c p IH]; [by destruct s|].
  rewrite app_String. simpl. by rewrite Ascii.eqb_refl.
Qed.

Lemma span_length_app p a c r :
  forall_chars p a = true → p c = false →
  span_length p (a +:+ String c r) = String.length a.
Proof.
  intros Ha Hc. induction a as [|x a IH]; simpl.
  - rewrite ?app_empty_l. simpl. by rewrite Hc.
  - simpl in Ha. apply andb_true_iff in Ha as [Hx Ha].
    rewrite ?app_String. simpl. rewrite Hx. f_equal. by apply IH.
Qed.

Lemma span_length_all p a :
  forall_chars p a = true → span_length p a = String.length a.
Proof.
  induction a as [|x a IH]; simpl; [done|].
  intros [Hx Ha]%andb_true_iff. rewrite Hx. f_equal. by apply IH.
Qed.

Lemma drop_app a r : JsString.drop (String.length a) (a +:+ r) = r.
Proof.
  induction a as [|x a IH]; simpl; [by destruct r|].
  by rewrite ?app_String.
Qed.

Lemma take_app a r : take (String.length a) (a +:+ r) = a.
Proof.
  induction a as [|x a IH]; simpl; [by destruct r|].
  rewrite ?app_String. by f_equal.
Qed.

Lemma match_data_url_data_url format data :
  format ≠ "" → forall_chars is_word_char format = true →
  data ≠ "" → forall_chars is_not_newline data = true →
  match_data_url (data_url format data) = Some (format, data).
Proof.
  intros Hf Hw Hd Hn. unfold match_data_url, data_url.
  rewrite strip_prefix_app.
  change (";base64," +:+ data) with (String ";" ("base64," +:+ data)).
  rewrite span_length_app by done.
  destruct (String.length format) as [|n] eqn:Hlen; [by destruct format|].
  rewrite <- Hlen, drop_app, take_app.
  change (String ";" ("base64," +:+ data)) with (";base64," +:+ data).
  rewrite strip_prefix_app.
  apply is_empty_false in Hd as ->. simpl.
  by rewrite span_length_all, Nat.eqb_refl.
Qed.

(** X6: an image item whose URL is [data:image/<format>;base64,<data>],
    with a format of word characters and data on one line, becomes one
    inline-data part of MIME type [image/<format>] carrying the data; an
    image item whose URL does not start with [data:image/] is dropped. *)
Theorem X6_data_url_images format data :
  format ≠ "" → forall_chars is_word_char format = true →
  data ≠ "" → forall_chars is_not_newline data = true →
  extractImagesFromContent (JArr [image_item (data_url format data)])
  = Ok ("", [InlineData ("image/" +:+ format) data])
  ∧ (∀ url, startsWith url "data:image/" = false →
            extractImagesFromContent (JArr [image_item url]) = Ok ("", [])).
Proof.
  intros Hf Hw Hd Hn. split.
  - cbn -[match_data_url data_url String.append].
    assert (Hne : is_empty (data_url format data) = false) by reflexivity.
    rewrite Hne. simpl negb. cbv iota.
    by rewrite match_data_url_data_url.
  - intros url Hurl. cbn -[match_data_url String.append].
    destruct (negb (is_empty url)); [|done].
    unfold match_data_url. unfold startsWith in Hurl.
    by destruct (strip_prefix "data:image/" url).
Qed.

Lemma X6_data_url_images_witness :
  extractImagesFromContent
    (JArr [image_item "data:image/png;base64,iVBORw0KGgo="])
  = Ok ("", [InlineData "image/png" "iVBORw0KGgo="]).
Proof.
  exact (proj1 (X6_data_url_images "png" "iVBORw0KGgo="
                  ltac:(done) eq_refl ltac:(done) eq_refl)).
Defined.

Lemma extract_text_items acc images texts :
  foldM extract_item (acc, images) (map text_item texts)
  = Ok (acc +:+ String.concat "" texts, images).
Proof.
  revert acc. induction texts as [|t texts IH]; intros acc.
  - simpl. f_equal. f_equal. induction acc as [|c acc IHa]; [done|].
    rewrite app_String. by f_equal.
  - cbn -[String.append String.concat]. rewrite IH. f_equal. f_equal.
    rewrite app_assoc_string. f_equal.
    destruct texts as [|t' texts]; simpl.
    + induction t as [|c t IHt]; [done|]. rewrite app_String. by f_equal.
    + done.
Qed.

(** X7: a string content is the text, without images; an array of text
    items gives the concatenation of their texts, in order; a content that
    is neither a string nor an array gives the empty text; an array
    holding [null] throws. *)
Theorem X7_extracted_text :
  (∀ s, extractImagesFromContent (JStr s) = Ok (s, []))
  ∧ (∀ texts,
        extractImagesFromContent (JArr (map text_item texts))
        = Ok (String.concat "" texts, []))
  ∧ (∀ v, is_string v = false → is_array v = false →
          extractImagesFromContent v = Ok ("", []))
  ∧ (∀ items, extractImagesFromContent (JArr (JNull :: items)) = TypeError).
Proof.
  split_and!.
  - done.
  - intros texts. unfold extractImagesFromContent.
    by rewrite extract_text_items.
  - by intros [].
  - done.
Qed.

Lemma X7_extracted_text_witness :
  extractImagesFromContent (JArr [text_item "Hel"; text_item "lo"])
  = Ok ("Hello", [])
  ∧ extractImagesFromContent (JNum (NInt 5)) = Ok ("", []).
Proof.
  destruct X7_extracted_text as (_ & H2 & H3 & _). split.
  - exact (H2 ["Hel"; "lo"]).
  - by apply H3.
Defined.

End MoreConverterFacts.

Section ConverterInvariants.
Import JsString Json SignatureCache Converter Invariants.

Variable JSON_parse : string -> option json.
Variable JSON_stringify : json -> json.

Local Abbreviation convert :=
  (convert_message JSON_parse JSON_stringify).
Local Abbreviation openai :=
  (openaiMessageToAntigravity JSON_parse JSON_stringify).

Lemma push_to_last_roles out ps :
  Forall backend_role out →
  Forall backend_role (push_to_last out ps)
  ∧ length (push_to_last out ps) = length out.
Proof.
  intros Hout. unfold push_to_last.
  destruct (last out) as [l|] eqn:Hl; [|done].
  apply last_Some in Hl as [init ->]. rewrite removelast_last.
  apply Forall_app in Hout as [Hinit Hl%Forall_inv].
  split; [|by rewrite !length_app].
  apply Forall_app. split; [done|]. by constructor.
Qed.

Lemma snoc_roles out role ps :
  Forall backend_role out → role = "user" ∨ role = "model" →
  Forall backend_role (out ++ [Turn role ps])
  ∧ length (out ++ [Turn role ps]) = S (length out).
Proof.
  intros Hout Hr. split; [|rewrite length_app; simpl; lia].
  apply Forall_app. split; [done|]. by constructor.
Qed.

Lemma convert_message_roles idm tm modelName out msg out' :
  Forall backend_role out →
  convert idm tm modelName out msg = Ok out' →
  Forall backend_role out' ∧ length out ≤ length out' ≤ S (length out).
Proof.
  intros Hout. unfold convert_message.
  destruct (String.eqb (role msg) "user").
  { destruct (extractImagesFromContent (content msg)) as [ex|]; [|done].
    intros [= <-]. unfold handleUserMessage.
    destruct (snoc_roles out "user" (TextPart ex.1 None :: ex.2) Hout) as [? ->];
      [by left|]. split; [done | lia]. }
  destruct (String.eqb (role msg) "assistant").
  { unfold handleAssistantMessage.
    destruct (assistant_text (content msg)) as [txt|]; [|done]. simpl.
    destruct (_ && _ && _).
    - intros [= <-]. destruct (push_to_last_roles out
        (if negb (length (tool_calls msg) =? 0)
         then map (convert_tool_call JSON_parse idm) (tool_calls msg) else [])
        Hout) as [? ->]. split; [done | lia].
    - intros [= <-].
      match goal with |- context [out ++ [Turn "model" ?ps]] =>
        destruct (snoc_roles out "model" ps Hout) as [? ->]; [by right|]
      end. split; [done | lia]. }
  destruct (String.eqb (role msg) "tool").
  { intros [= <-]. unfold handleToolCall.
    set (fr := FunctionResponse _ _ _).
    assert (Hnew : Forall backend_role (out ++ [Turn "user" [fr]])
                   ∧ length out ≤ length (out ++ [Turn "user" [fr]])
                     ≤ S (length out)).
    { destruct (snoc_roles out "user" [fr] Hout) as [? ->]; [by left|].
      split; [done | lia]. }
    destruct (last out) as [l|]; [|done].
    destruct (_ && _); [|done].
    destruct (push_to_last_roles out [fr] Hout) as [? ->].
    split; [done | lia]. }
  intros [= <-]. split; [done | lia].
Qed.

Lemma foldM_roles idm tm modelName msgs out out' :
  Forall backend_role out →
  foldM (convert idm tm modelName) out msgs = Ok out' →
  Forall backend_role out' ∧ length out' ≤ length out + length msgs.
Proof.
  revert out. induction msgs as [|msg msgs IH]; intros out Hout; simpl.
  - intros [= <-]. split; [done | lia].
  - destruct (convert idm tm modelName out msg) as [out1|] eqn:H1; [|done].
    simpl. intros H.
    destruct (convert_message_roles _ _ _ _ _ _ Hout H1) as [Hr Hl].
    destruct (IH _ Hr H) as [? ?]. split; [done | lia].
Qed.

(** X8: every turn the converter produces has role "user" or "model",
    and there are at most as many turns as messages. *)
Theorem X8_backend_roles idm tm msgs modelName out :
  openai idm tm msgs modelName = Ok out →
  Forall backend_role out ∧ length out ≤ length msgs.
Proof.
  intros H. by apply (foldM_roles idm tm modelName msgs [] out).
Qed.

Lemma foldM_ignores idm tm modelName (keep : message → bool) msgs :
  (∀ msg out, keep msg = false → convert idm tm modelName out msg = Ok out) →
  ∀ out, foldM (convert idm tm modelName) out (List.filter keep msgs)
         = foldM (convert idm tm modelName) out msgs.
Proof.
  intros Hskip. induction msgs as [|msg msgs IH]; intros out; simpl; [done|].
  destruct (keep msg) eqn:Hk; simpl.
  - destruct (convert idm tm modelName out msg); simpl; [apply IH | done].
  - rewrite (Hskip _ _ Hk). simpl. apply IH.
Qed.

(** X9: a message whose role is not "user", "assistant" or "tool" leaves
    the output as it is; so converting a history gives the same turns
    with or without its system messages. *)
Theorem X9_system_messages_are_skipped idm tm modelName :
  (∀ msg out,
      role msg ≠ "user" → role msg ≠ "assistant" → role msg ≠ "tool" →
      convert idm tm modelName out msg = Ok out)
  ∧ (∀ msgs,
        openai idm tm
               (List.filter (fun msg => negb (RequestBody.is_system msg)) msgs)
               modelName
        = openai idm tm msgs modelName).
Proof.
  assert (Hskip : ∀ msg out,
             role msg ≠ "user" → role msg ≠ "assistant" → role msg ≠ "tool" →
             convert idm tm modelName out msg = Ok out).
  { intros msg out Hu Ha Ht. unfold convert_message.
    apply String.eqb_neq in Hu as ->. apply String.eqb_neq in Ha as ->.
    by apply String.eqb_neq in Ht as ->. }
  split; [done|]. intros msgs. unfold openaiMessageToAntigravity.
  apply foldM_ignores. intros msg out Hk.
  apply negb_false_iff, String.eqb_eq in Hk.
  apply Hskip; by rewrite Hk.
Qed.

Lemma total_parts_app out1 out2 :
  total_parts (out1 ++ out2) = total_parts out1 + total_parts out2.
Proof.
  unfold total_parts. rewrite map_app.
  induction (map _ out1) as [|n l IH]; simpl; [done|]. rewrite IH. lia.
Qed.

(** X10: a tool turn is never dropped: its function response becomes the
    last part of the last turn, which is a user turn, and the output gains
    exactly this one part. *)
Theorem X10_tool_result_is_always_emitted message out :
  (∃ init ps,
      handleToolCall JSON_stringify message out
      = init ++ [Turn "user"
                   (ps ++ [response_part JSON_stringify message out])])
  ∧ total_parts (handleToolCall JSON_stringify message out)
    = S (total_parts out).
Proof.
  unfold handleToolCall. fold (response_part JSON_stringify message out).
  set (fr := response_part JSON_stringify message out).
  assert (Hnew : (∃ init ps, out ++ [Turn "user" [fr]]
                             = init ++ [Turn "user" (ps ++ [fr])])
                 ∧ total_parts (out ++ [Turn "user" [fr]])
                   = S (total_parts out)).
  { split; [by exists out, []|]. rewrite total_parts_app.
    unfold total_parts at 2. simpl. lia. }
  destruct (last out) as [l|] eqn:Hl; [|done].
  destruct (String.eqb (turn_role l) "user") eqn:Hu; [|done].
  destruct (existsb _ _); [|done]. simpl.
  apply last_Some in Hl as [init ->]. apply String.eqb_eq in Hu.
  rewrite push_to_last_snoc, Hu. split; [by exists init, (parts l)|].
  rewrite !total_parts_app. unfold total_parts. simpl.
  rewrite length_app. simpl. lia.
Qed.

Lemma lookback_skips_turns id l earlier :
  (∀ t, t ∈ l → turn_role t = "model" → find_call_name id (parts t) = "") →
  lookback id (l ++ earlier) = lookback id earlier.
Proof.
  induction l as [|t l IH]; intros H; [done|]. simpl.
  assert (IHl : lookback id (l ++ earlier) = lookback id earlier)
    by (apply IH; intros; apply H; [by right | done]).
  destruct (String.eqb (turn_role t) "model") eqn:Hr; [|done].
  apply String.eqb_eq in Hr. rewrite (H t) by (by left || done). done.
Qed.

(** X11: the name of a function response is the name of the first call
    with the same id in the latest model turn that has such a call with a
    name, whatever turns were emitted before it and whatever turns follow
    it, as long as no later model turn names a call with that id; turns
    that are not model turns are never looked at.  When no model turn
    names a call with that id, the name is the empty string. *)
Theorem X11_function_name_lookback idm before after tcs0 tc tcs1 text :
  (∀ p, p ∈ text → is_functionCall p = false) →
  (∀ tc', tc' ∈ tcs0 → tc_id tc' ≠ tc_id tc) →
  tc_name tc ≠ "" →
  (∀ t, t ∈ after → turn_role t = "model" →
        find_call_name (tc_id tc) (parts t) = "") →
  lookback (tc_id tc)
           (rev (before
                   ++ [Turn "model"
                         (text ++ map (convert_tool_call JSON_parse idm)
                                      (tcs0 ++ tc :: tcs1))]
                   ++ after))
  = tc_name tc
  ∧ (∀ id out,
        (∀ t, t ∈ out → turn_role t = "model" →
              find_call_name id (parts t) = "") →
        lookback id (rev out) = "").
Proof.
  intros Htext Hpre Hname Hafter. split.
  - rewrite !rev_app_distr. simpl. rewrite <- app_assoc.
    rewrite lookback_skips_turns.
    2:{ intros t Ht. apply Hafter.
        apply list_elem_of_In, in_rev. by apply list_elem_of_In. }
    simpl.
    assert (Hfind : find_call_name (tc_id tc)
              (text ++ map (convert_tool_call JSON_parse idm)
                           (tcs0 ++ tc :: tcs1))
            = tc_name tc).
    { clear Hname. induction text as [|p text IH]; simpl.
      - clear Htext. induction tcs0 as [|tc0 tcs0 IH0]; simpl.
        + by rewrite String.eqb_refl.
        + assert (tc_id tc0 ≠ tc_id tc) as ->%String.eqb_neq
            by (apply Hpre; by left).
          apply IH0. intros tc' Hin. apply Hpre. by right.
      - assert (Hp : is_functionCall p = false) by (apply Htext; by left).
        assert (IH' := IH (fun q Hq => Htext q (list_elem_of_further _ _ _ Hq))).
        by destruct p. }
    rewrite Hfind. by apply is_empty_false in Hname as ->.
  - intros id out H. rewrite <- (app_nil_r (rev out)).
    rewrite lookback_skips_turns; [done|]. intros t Ht. apply H.
    apply list_elem_of_In, in_rev. by apply list_elem_of_In.
Qed.

End ConverterInvariants.

Section ConverterInvariantRuns.
Import JsString Json SignatureCache Converter Invariants Samples.

Lemma X8_backend_roles_witness :
  ∃ out,
    openaiMessageToAntigravity parse_nothing stringify_nothing id_cache ∅
      [user_asks; assistant_calls; weather_result; time_result]
      "gemini-2.5-pro" = Ok out
    ∧ Forall backend_role out ∧ length out ≤ 4.
Proof.
  eexists. split; [by vm_compute|].
  apply (X8_backend_roles parse_nothing stringify_nothing id_cache ∅
           [user_asks; assistant_calls; weather_result; time_result]
           "gemini-2.5-pro").
  by vm_compute.
Defined.

Lemma X9_system_messages_are_skipped_witness :
  convert_message parse_nothing stringify_nothing ∅ ∅ "gemini-2.5-pro"
                  [model_spoke] (Message "system" (JStr "Be concise.") [] "")
  = Ok [model_spoke].
Proof.
  exact (proj1 (X9_system_messages_are_skipped parse_nothing stringify_nothing
                  ∅ ∅ "gemini-2.5-pro")
               (Message "system" (JStr "Be concise.") [] "") [model_spoke]
               ltac:(done) ltac:(done) ltac:(done)).
Defined.

Lemma X11_function_name_lookback_witness :
  lookback "call_2"
    (rev [Turn "user" [TextPart "Weather and time?" None];
          Turn "model"
            [ TextPart "Let me check." None;
              FunctionCall "call_1" "get_weather"
                           (JObj [("city", JStr "Paris")]) (Some "sig_1");
              FunctionCall "call_2" "get_time" (JObj []) None ];
          Turn "user" [FunctionResponse "call_1" "get_weather" (JStr "sunny")]])
  = "get_time".
Proof.
  exact (proj1 (X11_function_name_lookback parse_nothing id_cache
                  [Turn "user" [TextPart "Weather and time?" None]]
                  [Turn "user"
                     [FunctionResponse "call_1" "get_weather" (JStr "sunny")]]
                  [weather_call] time_call [] [TextPart "Let me check." None]
                  ltac:(intros p Hp; apply elem_of_cons in Hp as [->|Hp];
                        [done | by apply elem_of_nil in Hp])
                  ltac:(intros p Hp; apply elem_of_cons in Hp as [->|Hp];
                        [done | by apply elem_of_nil in Hp])
                  ltac:(done)
                  ltac:(intros t Ht; apply elem_of_cons in Ht as [->|Ht];
                        [done | by apply elem_of_nil in Ht]))).
Defined.

End ConverterInvariantRuns.

Section ConverterEdges.
Import JsString Json SignatureCache Converter Invariants.

Variable JSON_parse : string -> option json.
Variable JSON_stringify : json -> json.

(** X12: the output of a tool turn is its content when that is not an
    object, the [text] of an object that has a truthy one, and otherwise
    [JSON.stringify] of the content; an array is always stringified as a
    whole, its first text element is never picked. *)
Theorem X12_tool_output :
  (∀ v, is_object v = false → tool_output JSON_stringify v = v)
  ∧ (∀ items,
        tool_output JSON_stringify (JArr items) = JSON_stringify (JArr items))
  ∧ (∀ fs, truthy (opt_prop (JObj fs) "text") = true →
           tool_output JSON_stringify (JObj fs) = opt_prop (JObj fs) "text")
  ∧ (∀ fs, truthy (opt_prop (JObj fs) "text") = false →
           tool_output JSON_stringify (JObj fs) = JSON_stringify (JObj fs)).
Proof.
  unfold tool_output, or_else. split_and!.
  - by intros [].
  - done.
  - intros fs H. simpl. simpl in H. by rewrite H.
  - intros fs H. simpl. simpl in H. by rewrite H.
Qed.

(** X13: an assistant turn without text (empty, white space only, or no
    text content at all) that is not merged, because it has no tool calls
    or because the last output turn is not a model turn, still adds a
    model turn, holding only the function calls: with no tool calls, a
    model turn without parts. *)
Theorem X13_blank_assistant_turn idm tm message out modelName contentText :
  assistant_text (content message) = Ok contentText →
  trim contentText = "" →
  tool_calls message = []
  ∨ (∀ l, last out = Some l → turn_role l ≠ "model") →
  handleAssistantMessage JSON_parse idm tm message out modelName
  = Ok (out ++ [Turn "model"
                  (map (convert_tool_call JSON_parse idm)
                       (tool_calls message))]).
Proof.
  intros Htxt Hblank Hcase. unfold handleAssistantMessage.
  rewrite Htxt. simpl. rewrite Hblank. simpl.
  assert (Hmerge :
    (match last out with
     | Some l => String.eqb (turn_role l) "model"
     | None => false
     end) && negb (length (tool_calls message) =? 0) = false).
  { destruct Hcase as [-> | Hlast]; [by rewrite andb_false_r|].
    destruct (last out) as [l|]; [|done].
    pose proof (Hlast l eq_refl) as Hl.
    by apply String.eqb_neq in Hl as ->. }
  rewrite Hmerge. simpl. by destruct (tool_calls message).
Qed.

End ConverterEdges.

Section ConverterEdgeRuns.
Import JsString Json SignatureCache Converter Invariants Samples.

Lemma X12_tool_output_witness :
  tool_output stringify_nothing (JObj [("text", JStr "sunny")]) = JStr "sunny"
  ∧ tool_output stringify_nothing (JStr "noon") = JStr "noon".
Proof.
  destruct (X12_tool_output stringify_nothing) as (H1 & _ & H3 & _).
  split; [by apply H3 | by apply H1].
Defined.

Lemma X13_blank_assistant_turn_witness :
  handleAssistantMessage parse_nothing ∅ ∅
                         (Message "assistant" (JStr "  ") [] "")
                         [model_spoke] "gemini-2.5-pro"
  = Ok [model_spoke; Turn "model" []].
Proof.
  exact (X13_blank_assistant_turn parse_nothing ∅ ∅
           (Message "assistant" (JStr "  ") [] "") [model_spoke]
           "gemini-2.5-pro" "  " eq_refl eq_refl (or_introl eq_refl)).
Defined.

End ConverterEdgeRuns.

(** ** Further properties of the request assembler *)
Section MoreAssemblerFacts.
Import JsString Json Assembler.

(** X14: a request parameter is used whenever it is neither [null] nor
    [undefined], so a temperature of 0 is kept; the configured default is
    used only for a missing or [null] parameter. *)
Theorem X14_parameter_fallback defaults params enableThinking model :
  let config := generateGenerationConfig defaults params enableThinking model in
  (is_nullish (temperature params) = false →
   gc_temperature config = temperature params)
  ∧ (is_nullish (temperature params) = true →
     gc_temperature config = temperature defaults)
  ∧ (is_nullish (top_k params) = false → topK config = top_k params)
  ∧ (is_nullish (top_k params) = true → topK config = top_k defaults)
  ∧ (is_nullish (max_tokens params) = false →
     maxOutputTokens config = max_tokens params)
  ∧ (is_nullish (max_tokens params) = true →
     maxOutputTokens config = max_tokens defaults)
  ∧ (∀ p, topP config = Some p →
          p = if is_nullish (top_p params) then top_p defaults
              else top_p params).
Proof.
  unfold generateGenerationConfig, nullish_or. cbv zeta.
  destruct (enableThinking && includes model "claude"); simpl;
    split_and!; try (by intros ->); by intros p [= <-].
Qed.

Lemma X14_parameter_fallback_witness :
  gc_temperature
    (generateGenerationConfig Samples.example_defaults
       (Parameters JUndefined JNull (JNum (NInt 0)) JUndefined)
       false "gemini-2.5-pro")
  = JNum (NInt 0)
  ∧ topK
      (generateGenerationConfig Samples.example_defaults
         (Parameters JUndefined JNull (JNum (NInt 0)) JUndefined)
         false "gemini-2.5-pro")
    = JNum (NInt 50).
Proof.
  destruct (X14_parameter_fallback Samples.example_defaults
              (Parameters JUndefined JNull (JNum (NInt 0)) JUndefined)
              false "gemini-2.5-pro") as (H1 & _ & _ & H4 & _).
  split; [by apply H1 | by apply H4].
Defined.

End MoreAssemblerFacts.

(** ** Function names and the default address *)
Section NameFacts.
Import JsString Json Names.

Lemma replace_illegal_word_chars s : all_word_chars (replace_illegal s) = true.
Proof.
  induction s as [|c s IH]; simpl; [done|].
  rewrite IH, andb_true_r. by destruct (Converter.is_word_char c) eqn:E.
Qed.

Lemma replace_illegal_fixed s :
  all_word_chars s = true → replace_illegal s = s.
Proof.
  induction s as [|c s IH]; simpl; [done|].
  intros [-> Hs]%andb_true_iff. by rewrite IH.
Qed.

Lemma sanitize_valid_name s :
  valid_name s = true → sanitizeFunctionName (JStr s) = s.
Proof.
  unfold valid_name, sanitizeFunctionName.
  intros [[He Hw]%andb_true_iff Hd]%andb_true_iff.
  apply negb_true_iff in He, Hd. rewrite He.
  rewrite replace_illegal_fixed by done. by rewrite Hd, He.
Qed.

(** X25: whatever it is given, [sanitizeFunctionName] returns a name
    that is not empty, consists of letters, digits and underscores, and
    does not start with a digit; it returns a name of that form unchanged,
    so applying it twice is applying it once. *)
Theorem X25_sanitized_function_name name :
  valid_name (sanitizeFunctionName name) = true
  ∧ (∀ s, valid_name s = true → sanitizeFunctionName (JStr s) = s)
  ∧ sanitizeFunctionName (JStr (sanitizeFunctionName name))
    = sanitizeFunctionName name.
Proof.
  assert (Hvalid : valid_name (sanitizeFunctionName name) = true).
  { unfold sanitizeFunctionName.
    destruct name as [| | | |n| |]; try done.
    destruct n as [|c n]; [done|]. cbn [is_empty].
    pose proof (replace_illegal_word_chars (String c n)) as Hw.
    assert (Hne : is_empty (replace_illegal (String c n)) = false) by done.
    set (r := replace_illegal (String c n)) in *. clearbody r.
    destruct (starts_with_digit r) eqn:Hd.
    - change ("fn_" +:+ r) with (String "f" (String "n" (String "_" r))).
      unfold valid_name. simpl. by rewrite Hw.
    - rewrite Hne. unfold valid_name. by rewrite Hne, Hw, Hd. }
  split_and!; [done | apply sanitize_valid_name |].
  by apply sanitize_valid_name.
Qed.

Lemma X25_sanitized_function_name_witness :
  sanitizeFunctionName (JStr "9 lives-left") = "fn_9_lives_left"
  ∧ sanitizeFunctionName (JStr "get_weather") = "get_weather".
Proof.
  split; [by vm_compute|].
  by apply (proj1 (proj2 (X25_sanitized_function_name JNull))).
Defined.

End NameFacts.

Section NetworkFacts.
Import Network.

Lemma find_first {A} (f : A → bool) pre x post :
  Forall (fun y => f y = false) pre → f x = true →
  find f (pre ++ x :: post) = Some x.
Proof.
  intros Hpre Hx. induction Hpre as [|y pre Hy _ IH]; simpl.
  - by rewrite Hx.
  - by rewrite Hy.
Qed.

Lemma find_nothing {A} (f : A → bool) l :
  Forall (fun y => f y = false) l → find f l = None.
Proof.
  intros Hl. induction Hl as [|y l Hy _ IH]; simpl; [done|]. by rewrite Hy.
Qed.

(** X26: [getDefaultIp] answers with the address of the first interface
    of the list that is IPv4 and not internal: the interfaces before it
    and after it do not matter.  The list is [WLAN] when that key is
    present, whatever [wlan2] holds, and [wlan2] only when [WLAN] is
    absent; the answer is "127.0.0.1" when the list has no such interface
    (for [WLAN], even when [wlan2] has one) and when both keys are
    absent. *)
Theorem X26_default_ip pre inter post wlan other :
  Forall (fun i => external_IPv4 i = false) pre →
  external_IPv4 inter = true →
  Forall (fun i => external_IPv4 i = false) wlan →
  getDefaultIp (Interfaces (Some (pre ++ inter :: post)) other)
  = address inter
  ∧ getDefaultIp (Interfaces None (Some (pre ++ inter :: post)))
    = address inter
  ∧ getDefaultIp (Interfaces (Some wlan) other) = "127.0.0.1"
  ∧ getDefaultIp (Interfaces None (Some wlan)) = "127.0.0.1"
  ∧ getDefaultIp (Interfaces None None) = "127.0.0.1".
Proof.
  intros Hpre Hinter Hwlan. unfold getDefaultIp. simpl.
  by rewrite (find_first _ _ _ _ Hpre Hinter), (find_nothing _ _ Hwlan).
Qed.

Lemma X26_default_ip_witness :
  getDefaultIp
    (Interfaces
       (Some [ Interface "IPv6" false "fe80::1";
               Interface "IPv4" true "127.0.0.1";
               Interface "IPv4" false "192.168.1.5";
               Interface "IPv4" false "10.0.0.2" ])
       (Some [Interface "IPv4" false "10.0.0.9"]))
  = "192.168.1.5"
  ∧ getDefaultIp
      (Interfaces (Some [Interface "IPv4" true "127.0.0.1"])
                  (Some [Interface "IPv4" false "10.0.0.9"]))
    = "127.0.0.1".
Proof.
  destruct (X26_default_ip
              [Interface "IPv6" false "fe80::1";
               Interface "IPv4" true "127.0.0.1"]
              (Interface "IPv4" false "192.168.1.5")
              [Interface "IPv4" false "10.0.0.2"]
              [Interface "IPv4" true "127.0.0.1"]
              (Some [Interface "IPv4" false "10.0.0.9"])
              ltac:(by repeat constructor) eq_refl
              ltac:(by repeat constructor)) as (H1 & _ & H3 & _).
  by split.
Defined.

End NetworkFacts.

(** ** Tool declarations *)
Section ToolFacts.
Import JsString Sanitizer Tools.

Lemma spread_Done v st :
  (∀ a, v = VRef a → a < length (heap st)) →
  ∃ c, spread v st
       = Done (VRef (length (heap st))) (State (heap st ++ [c]) (visited st)).
Proof.
  intros Hv. destruct v as [| | b | n | s | a | |]; try by eexists.
  unfold spread, bind, deref.
  assert (Hc : is_Some (heap st !! a))
    by (apply lookup_lt_is_Some_2, Hv; done).
  destruct Hc as [c Hc]. rewrite Hc. by eexists.
Qed.

Lemma convert_tool_Done fuel t st :
  tool_in_arena (heap st) t →
  ∃ c,
    convert_tool (S fuel) t st
    = Done (Declaration
              (if truthy (fn_name t) then fn_name t
               else VStr "unknown_function")
              (if truthy (fn_description t) then fn_description t
               else VStr "")
              (VRef (S (length (heap st)))))
           (State (heap st ++ [c; circular_marker]) (visited st)).
Proof.
  intros Ht. unfold convert_tool.
  assert (Hcopy : ∃ c,
    (if truthy (fn_parameters t) then spread (fn_parameters t)
     else alloc (Obj [])) st
    = Done (VRef (length (heap st))) (State (heap st ++ [c]) (visited st))).
  { destruct (truthy (fn_parameters t)); [by apply spread_Done | by eexists]. }
  destruct Hcopy as [c Hcopy]. exists c.
  unfold bind at 1. rewrite Hcopy.
  unfold bind at 1, clean_in_arena. cbn [heap visited].
  rewrite cleanJsonSchema_object. cbn [heap visited]. unfold ret.
  rewrite length_app. simpl. rewrite Nat.add_1_r, <- app_assoc. done.
Qed.

Lemma mapM_convert_tool fuel tools :
  ∀ st, Forall (tool_in_arena (heap st)) tools →
  ∃ decls st',
    mapM (convert_tool (S fuel)) tools st = Done decls st'
    ∧ heap st `prefix_of` heap st'
    ∧ Forall2 (fun t d =>
                 decl_name d = (if truthy (fn_name t) then fn_name t
                                else VStr "unknown_function")
                 ∧ decl_description d
                   = (if truthy (fn_description t) then fn_description t
                      else VStr "")
                 ∧ ∃ p, decl_parameters d = VRef p
                        ∧ heap st' !! p = Some circular_marker)
              tools decls.
Proof.
  induction tools as [|t tools IH]; intros st Htools.
  - exists [], st. by split_and!.
  - apply Forall_cons in Htools as [Ht Htools].
    destruct (convert_tool_Done fuel t st Ht) as [c Hc].
    set (st1 := State (heap st ++ [c; circular_marker]) (visited st)) in *.
    assert (Htools1 : Forall (tool_in_arena (heap st1)) tools).
    { eapply Forall_impl; [exact Htools|]. intros t' Ht' a Ha.
      specialize (Ht' a Ha). simpl. rewrite length_app. lia. }
    destruct (IH st1 Htools1) as (decls & st' & Hrun & Hpre & Hall).
    eexists _, st'. simpl. unfold bind at 1. rewrite Hc.
    unfold bind at 1. rewrite Hrun. split; [reflexivity|].
    split; [by etrans; [apply prefix_app_r|exact Hpre]|].
    constructor; [|done]. simpl. split_and!; [done..|].
    eexists. split; [done|].
    eapply prefix_lookup_Some; [|exact Hpre]. simpl.
    rewrite lookup_app_r by lia.
    by replace (S (length (heap st)) - length (heap st)) with 1 by lia.
Qed.

(** X19: whatever schema a tool declares, the parameters of its function
    declaration are the node [{type: "object", description: "[Circular
    Reference]"}]; the conversion succeeds for every list of tools, keeps
    their number and order, names a tool without a name "unknown_function"
    and leaves the cells of the arena untouched.  No tools, or an empty
    list, give no declarations. *)
Theorem X19_tool_parameters_collapse fuel tools st :
  Forall (tool_in_arena (heap st)) tools →
  (∃ decls st',
      convertOpenAIToolsToAntigravity (S fuel) (Some tools) st
      = Done decls st'
      ∧ heap st `prefix_of` heap st'
      ∧ Forall2 (fun t d =>
                   decl_name d = (if truthy (fn_name t) then fn_name t
                                  else VStr "unknown_function")
                   ∧ decl_description d
                     = (if truthy (fn_description t) then fn_description t
                        else VStr "")
                   ∧ ∃ p, decl_parameters d = VRef p
                          ∧ heap st' !! p = Some circular_marker)
                tools decls)
  ∧ convertOpenAIToolsToAntigravity (S fuel) None st = Done [] st.
Proof.
  intros Htools. split; [|done]. unfold convertOpenAIToolsToAntigravity.
  destruct tools as [|t tools]; [by exists [], st|].
  change (length (t :: tools) =? 0) with false. cbv iota.
  by apply mapM_convert_tool.
Qed.

End ToolFacts.

Section ToolRuns.
Import JsString Sanitizer Tools.

Lemma X19_tool_parameters_collapse_witness :
  ∃ decls st',
    convertOpenAIToolsToAntigravity 1
      (Some [Tool (VStr "list_tags") VUndefined (VRef 0)])
      (State tags_schema ∅)
    = Done decls st'
    ∧ heap (State tags_schema ∅) `prefix_of` heap st'
    ∧ Forall2 (fun t d =>
                 decl_name d = (if truthy (fn_name t) then fn_name t
                                else VStr "unknown_function")
                 ∧ decl_description d
                   = (if truthy (fn_description t) then fn_description t
                      else VStr "")
                 ∧ ∃ p, decl_parameters d = VRef p
                        ∧ heap st' !! p = Some circular_marker)
              [Tool (VStr "list_tags") VUndefined (VRef 0)] decls.
Proof.
  apply (proj1 (X19_tool_parameters_collapse 0
                  [Tool (VStr "list_tags") VUndefined (VRef 0)]
                  (State tags_schema ∅)
                  ltac:(constructor; [intros a [= <-]; simpl; lia | constructor]))).
Defined.

End ToolRuns.

(** ** The request body *)
Section RequestBodyFacts.
Import JsString Json SignatureCache Converter Assembler Invariants RequestBody.

Variable JSON_parse : string -> option json.
Variable JSON_stringify : json -> json.
Variable config_defaults : parameters.
Variable config_systemInstruction : string.
Variable fresh_requestId : string.

Local Abbreviation generate :=
  (generateRequestBody JSON_parse JSON_stringify config_defaults
                       config_systemInstruction fresh_requestId).
Local Abbreviation contents_of :=
  (request_contents JSON_parse JSON_stringify).

Lemma strip_signatures_clean contents :
  Forall (fun t => Forall (fun p => has_signature p = false) (parts t))
         (strip_signatures contents).
Proof.
  unfold strip_signatures. apply Forall_map, Forall_true. intros t. simpl.
  apply Forall_map, Forall_true. by intros [].
Qed.

Lemma openai_without_system idm tm msgs modelName :
  openaiMessageToAntigravity JSON_parse JSON_stringify idm tm
    (List.filter (fun msg => negb (is_system msg)) msgs) modelName
  = openaiMessageToAntigravity JSON_parse JSON_stringify idm tm msgs modelName.
Proof.
  unfold openaiMessageToAntigravity. apply foldM_ignores.
  intros msg out Hk. apply negb_false_iff, String.eqb_eq in Hk.
  unfold convert_message. by rewrite Hk.
Qed.

Lemma generate_Built idm tm fuel arena msgs modelName params tools token rb :
  generate idm tm fuel arena msgs modelName params tools token = Built rb →
  ∃ sc contents,
    systemContent msgs = Ok sc
    ∧ contents_of idm tm msgs modelName = Ok contents
    ∧ rb_contents rb = contents
    ∧ rb_systemInstruction_text rb
      = (if negb (is_empty (finalSystemInstruction config_systemInstruction sc))
         then finalSystemInstruction config_systemInstruction sc
         else "You are a helpful assistant.")
    ∧ rb_generationConfig rb
      = generateGenerationConfig config_defaults params
          (enableThinking modelName
             (List.filter (fun msg => negb (is_system msg)) msgs))
          modelName
    ∧ rb_systemInstruction_role rb = "user"
    ∧ rb_model rb = modelName
    ∧ rb_requestId rb = fresh_requestId
    ∧ rb_project rb = projectId token
    ∧ rb_sessionId rb = sessionId token.
Proof.
  unfold generateRequestBody.
  destruct (systemContent msgs) as [sc|]; [|done].
  destruct (request_contents _ _ _ _ _ _) as [contents|]; [|done].
  destruct (Tools.convertOpenAIToolsToAntigravity _ _ _); try done.
  intros [= <-]. by exists sc, contents.
Qed.

(** X15: in a request body for a model whose name contains "claude", no
    part of any turn carries a thought signature; for any other model the
    contents are the converter's output for the whole history, the system
    messages included or not. *)
Theorem X15_claude_contents_lose_signatures
        idm tm fuel arena msgs modelName params tools token rb :
  generate idm tm fuel arena msgs modelName params tools token = Built rb →
  (includes modelName "claude" = true →
   Forall (fun t => Forall (fun p => has_signature p = false) (parts t))
          (rb_contents rb))
  ∧ (includes modelName "claude" = false →
     openaiMessageToAntigravity JSON_parse JSON_stringify idm tm msgs modelName
     = Ok (rb_contents rb)).
Proof.
  intros (sc & contents & _ & Hc & -> & _)%generate_Built.
  unfold request_contents in Hc. rewrite openai_without_system in Hc.
  destruct (openaiMessageToAntigravity _ _ _ _ _ _) as [out|]; [|done].
  simpl in Hc. split; intros Hm; rewrite Hm in Hc;
    injection Hc as <-; [apply strip_signatures_clean | done].
Qed.

Lemma join_two sep a b :
  join_nonempty sep [a; b]
  = if is_empty a then b
    else if is_empty b then a else a +:+ sep +:+ b.
Proof.
  unfold join_nonempty. simpl.
  destruct a as [|x a], b as [|y b]; simpl; try done.
Qed.

(** X16: the system instruction of a request body has role "user" and a
    text that is never empty: the configured instruction and the text of
    the system messages, joined by an empty line when both are present,
    and "You are a helpful assistant." when both are empty. *)
Theorem X16_system_instruction
        idm tm fuel arena msgs modelName params tools token rb :
  generate idm tm fuel arena msgs modelName params tools token = Built rb →
  ∃ sc,
    systemContent msgs = Ok sc
    ∧ rb_systemInstruction_role rb = "user"
    ∧ rb_systemInstruction_text rb ≠ ""
    ∧ rb_systemInstruction_text rb
      = (if is_empty config_systemInstruction then
           if is_empty sc then "You are a helpful assistant." else sc
         else if is_empty sc then config_systemInstruction
              else config_systemInstruction
                     +:+ String "010" (String "010" "") +:+ sc).
Proof.
  intros (sc & contents & Hsc & _ & _ & Htext & _ & Hrole & _)%generate_Built.
  exists sc. split_and!; [done..| |].
  - rewrite Htext. by destruct (finalSystemInstruction _ _).
  - rewrite Htext. unfold finalSystemInstruction. rewrite join_two.
    destruct config_systemInstruction as [|c cfg], sc as [|x sc]; try done.
Qed.

(** X17: the request body omits [topP] exactly when the model name passes
    the thinking test, contains "claude", and the history has no assistant
    turn with tool calls; for a "claude" model with such a turn thinking is
    off, and for a model that is not "claude" thinking follows the test on
    the name alone. *)
Theorem X17_thinking_decision
        idm tm fuel arena msgs modelName params tools token rb :
  generate idm tm fuel arena msgs modelName params tools token = Built rb →
  let history := List.filter (fun msg => negb (is_system msg)) msgs in
  let config := rb_generationConfig rb in
  (topP config = None
   ↔ baseEnableThinking modelName = true
     ∧ includes modelName "claude" = true
     ∧ hasAssistantToolCalls history = false)
  ∧ (includes modelName "claude" = true →
     hasAssistantToolCalls history = true →
     includeThoughts (gc_thinkingConfig config) = false
     ∧ thinkingBudget (gc_thinkingConfig config) = 0%Z)
  ∧ (includes modelName "claude" = false →
     includeThoughts (gc_thinkingConfig config) = baseEnableThinking modelName).
Proof.
  intros (sc & contents & _ & _ & _ & _ & Hgc & _)%generate_Built.
  cbv zeta. rewrite Hgc. unfold generateGenerationConfig, enableThinking.
  destruct (baseEnableThinking modelName), (includes modelName "claude"),
    (hasAssistantToolCalls _); simpl; split_and!; try done;
    try (split; [done | by intros (? & ? & ?)]).
Qed.

(** X18: the native entry point returns the caller's contents when they
    are an array and no contents otherwise, and the caller's generation
    config when it has one; the config it generates always has [topP],
    and never enables thinking for a "claude" model. *)
Theorem X18_native_request geminiRequest modelName token :
  let body :=
    generateRequestBodyFromGemini config_defaults config_systemInstruction
                                  fresh_requestId geminiRequest modelName
                                  token in
  (∀ l, opt_prop geminiRequest "contents" = JArr l →
        nr_contents (nb_request body) = l)
  ∧ (is_array (opt_prop geminiRequest "contents") = false →
     nr_contents (nb_request body) = [])
  ∧ (truthy (opt_prop geminiRequest "generationConfig") = true →
     nr_generationConfig (nb_request body)
     = inl (opt_prop geminiRequest "generationConfig"))
  ∧ (∀ config, nr_generationConfig (nb_request body) = inr config →
               topP config ≠ None
               ∧ (includes modelName "claude" = true →
                  includeThoughts (gc_thinkingConfig config) = false
                  ∧ thinkingBudget (gc_thinkingConfig config) = 0%Z))
  ∧ nb_model body = modelName
  ∧ nb_requestId body = fresh_requestId.
Proof.
  cbv zeta. unfold generateRequestBodyFromGemini. simpl. split_and!; try done.
  - by intros l ->.
  - by destruct (opt_prop geminiRequest "contents").
  - by intros ->.
  - intros config. destruct (truthy _); [done|]. intros [= <-].
    unfold generateGenerationConfig.
    destruct (baseEnableThinking modelName), (includes modelName "claude");
      simpl; split; try done; by intros _.
Qed.

End RequestBodyFacts.

Section RequestBodyRuns.
Import JsString Json SignatureCache Converter Assembler Invariants RequestBody.
Import Samples RequestSamples.

Lemma X15_claude_contents_lose_signatures_witness :
  ∃ rb,
    sample_body "claude-sonnet-4-5-thinking" = Built rb
    ∧ Forall (fun t => Forall (fun p => has_signature p = false) (parts t))
             (rb_contents rb).
Proof.
  eexists. split; [by vm_compute|].
  eapply (proj1 (X15_claude_contents_lose_signatures
                   parse_nothing stringify_nothing example_defaults
                   "Be helpful." "req-1" id_cache ∅ 1 [] sample_history
                   "claude-sonnet-4-5-thinking" Samples.no_parameters None
                   sample_token _ ltac:(by vm_compute)));
    reflexivity.
Defined.

Lemma X16_system_instruction_witness :
  ∃ rb,
    sample_body "gemini-2.5-pro" = Built rb
    ∧ rb_systemInstruction_text rb
      = "Be helpful." +:+ String "010" (String "010" "Be concise.")
    ∧ rb_systemInstruction_role rb = "user".
Proof.
  eexists. split; [by vm_compute|].
  destruct (X16_system_instruction
              parse_nothing stringify_nothing example_defaults
              "Be helpful." "req-1" id_cache ∅ 1 [] sample_history
              "gemini-2.5-pro" Samples.no_parameters None sample_token _
              ltac:(by vm_compute)) as (sc & Hsc & Hrole & _ & Htext).
  injection Hsc as <-. split; [exact Htext | exact Hrole].
Defined.

Lemma X17_thinking_decision_witness :
  ∃ rb,
    sample_body "claude-sonnet-4-5-thinking" = Built rb
    ∧ includeThoughts (gc_thinkingConfig (rb_generationConfig rb)) = false
    ∧ thinkingBudget (gc_thinkingConfig (rb_generationConfig rb)) = 0%Z.
Proof.
  eexists. split; [by vm_compute|].
  eapply (proj1 (proj2 (X17_thinking_decision
                   parse_nothing stringify_nothing example_defaults
                   "Be helpful." "req-1" id_cache ∅ 1 [] sample_history
                   "claude-sonnet-4-5-thinking" Samples.no_parameters None
                   sample_token _ ltac:(by vm_compute))));
    reflexivity.
Defined.

Lemma X18_native_request_witness :
  nr_contents
    (nb_request
       (generateRequestBodyFromGemini example_defaults "Be helpful." "req-1"
          (JObj [("contents", JArr [JObj [("role", JStr "user")]])])
          "claude-sonnet-4-5-thinking" sample_token))
  = [JObj [("role", JStr "user")]].
Proof.
  by apply (proj1 (X18_native_request example_defaults "Be helpful." "req-1"
                     (JObj [("contents", JArr [JObj [("role", JStr "user")]])])
                     "claude-sonnet-4-5-thinking" sample_token)).
Defined.

End RequestBodyRuns.

(** ** Further properties of the sanitizer *)
Section MoreSanitizerFacts.
Import JsString Sanitizer Tools.

Ltac run_step H :=
  match type of H with
  | bind _ _ _ = Done _ _ =>
      let H1 := fresh "Hrun" in
      apply bind_Done in H as (? & ? & H1 & H)
  | ret _ _ = Done _ _ => apply ret_Done in H as [-> ->]
  | throw _ = Done _ _ => discriminate H
  | unmodelled _ = Done _ _ => discriminate H
  | out_of_fuel _ = Done _ _ => discriminate H
  | (if ?b then _ else _) _ = Done _ _ => destruct b eqn:?
  | (match ?x with _ => _ end) _ = Done _ _ => destruct x eqn:?
  | (let '(_, _) := ?x in _) _ = Done _ _ => destruct x eqn:?
  end.

Lemma lower_char_idem c : lower_char (lower_char c) = lower_char c.
Proof. by destruct c as [[] [] [] [] [] [] [] []]. Qed.

Lemma toLowerCase_idem s : toLowerCase (toLowerCase s) = toLowerCase s.
Proof.
  induction s as [|c s IH]; [done|]. simpl. by rewrite lower_char_idem, IH.
Qed.

(** X24: [mapUnknownType] does not look at the case of a type name, and
    for a name outside [Object.prototype] it returns one of the six known
    types, "string" when the name is not in its table; a type that is a
    number, a boolean or an object makes it throw.  [inferType] returns
    one of the six known types for every value.  For the names
    "constructor" and "__proto__", in whatever case, [mapUnknownType]
    returns the function [Object] and the object [Object.prototype]. *)
Theorem X24_type_helpers :
  (∀ s st, mapUnknownType (VStr s) st
           = mapUnknownType (VStr (toLowerCase s)) st)
  ∧ (∀ s st, toLowerCase s ∉ inherited_names →
             ∃ t, mapUnknownType (VStr s) st = Done (VStr t) st
                  ∧ t ∈ VALID_TYPES)
  ∧ (∀ n b a st, mapUnknownType (VNum n) st = TypeError
                 ∧ mapUnknownType (VBool b) st = TypeError
                 ∧ mapUnknownType (VRef a) st = TypeError)
  ∧ (∀ v st t st', inferType v st = Done t st' → t ∈ VALID_TYPES)
  ∧ (∀ s st, toLowerCase s = "constructor" →
             mapUnknownType (VStr s) st = Done VObject st)
  ∧ (∀ s st, toLowerCase s = "__proto__" →
             mapUnknownType (VStr s) st = Done VObjectPrototype st).
Proof.
  split_and!.
  - intros s st. unfold mapUnknownType. by rewrite toLowerCase_idem.
  - intros s st Hs. unfold mapUnknownType, ret.
    destruct (typeMap_get_valid _ Hs) as (t & -> & Ht). by exists t.
  - done.
  - apply inferType_valid.
  - intros s st Hs. unfold mapUnknownType. by rewrite Hs.
  - intros s st Hs. unfold mapUnknownType. by rewrite Hs.
Qed.

Lemma X24_type_helpers_witness :
  ∃ t, mapUnknownType (VStr "Float") (State [] ∅) = Done (VStr t) (State [] ∅)
       ∧ t ∈ VALID_TYPES.
Proof.
  apply (proj1 (proj2 X24_type_helpers) "Float" (State [] ∅)).
  vm_compute. set_solver.
Defined.

Lemma mapM_length {A B} (f : A → M B) l :
  ∀ st r st', mapM f l st = Done r st' → length r = length l.
Proof.
  induction l as [|x l IH]; intros st r st' H; simpl in H.
  - by run_step H.
  - apply bind_Done in H as (y & s1 & _ & H).
    apply bind_Done in H as (ys & s2 & Hys & H). run_step H.
    simpl. f_equal. eauto.
Qed.

Lemma mapM_no_objects (f : value → M value) l st :
  Forall (fun item => typeof_object item && negb (is_nullish item) = false) l →
  mapM (fun item =>
          if typeof_object item && negb (is_nullish item)
          then f item else ret item) l st
  = Done l st.
Proof.
  intros Hl. induction Hl as [|x l Hx _ IH]; simpl; [done|].
  unfold bind at 1. rewrite Hx. unfold ret at 1.
  unfold bind at 1. by rewrite IH.
Qed.

Lemma cleanObject_fresh_array fuel a elems st :
  heap st !! a = Some (Arr elems) → a ∉ visited st →
  cleanObject (S fuel) (VRef a) st = clean_array (cleanObject fuel) elems st.
Proof.
  intros Ha Hv. simpl. unfold cleanObject_body. simpl.
  unfold bind at 1, visited_has at 1.
  rewrite bool_decide_eq_false_2 by done.
  unfold bind at 1, deref at 1. by rewrite Ha.
Qed.

(** X23: whenever [cleanObject] returns for an array not visited before,
    the result is a new array without [null] and [undefined] elements,
    never longer than the original.  For an array without object elements
    it always returns, with the elements that are neither [null] nor
    [undefined], in order.  It does not return for every array: arrays
    are not put into [visited], so on an array that contains itself the
    recursion never ends, at whatever fuel. *)
Theorem X23_arrays_lose_null_elements :
  (∀ fuel a elems st v st',
      heap st !! a = Some (Arr elems) → a ∉ visited st →
      cleanObject (S fuel) (VRef a) st = Done v st' →
      ∃ r out,
        v = VRef r ∧ heap st' !! r = Some (Arr out)
        ∧ Forall (fun item => is_nullish item = false) out
        ∧ length out ≤ length elems)
  ∧ (∀ fuel a elems st,
        heap st !! a = Some (Arr elems) → a ∉ visited st →
        Forall (fun item => typeof_object item && negb (is_nullish item) = false)
               elems →
        cleanObject (S fuel) (VRef a) st
        = Done (VRef (length (heap st)))
               (State (heap st
                         ++ [Arr (List.filter
                                    (fun item => negb (is_nullish item)) elems)])
                      (visited st)))
  ∧ (∀ fuel a st,
        heap st !! a = Some (Arr [VRef a]) → a ∉ visited st →
        cleanObject fuel (VRef a) st = OutOfFuel).
Proof.
  split_and!.
  - intros fuel a elems st v st' Ha Hv H.
    rewrite (cleanObject_fresh_array _ _ _ _ Ha Hv) in H.
    unfold clean_array in H.
    apply bind_Done in H as (mapped & s1 & Hmap & H).
    apply alloc_Done in H as (-> & Hheap & _).
    eexists _, _. split; [done|]. split_and!.
    + rewrite Hheap. by rewrite lookup_app_r, Nat.sub_diag by lia.
    + apply Forall_forall. intros x [_ Hx]%list_elem_of_In%filter_In.
      by apply negb_true_iff.
    + rewrite <- (mapM_length _ _ _ _ _ Hmap). apply filter_length_le.
  - intros fuel a elems st Ha Hv Helems.
    rewrite (cleanObject_fresh_array _ _ _ _ Ha Hv).
    unfold clean_array, bind. by rewrite mapM_no_objects.
  - intros fuel a st Ha Hv. induction fuel as [|fuel IH]; [done|].
    rewrite (cleanObject_fresh_array _ _ _ _ Ha Hv).
    unfold clean_array. simpl. unfold bind. by rewrite IH.
Qed.

Lemma X23_arrays_lose_null_elements_witness :
  (∃ v st',
      cleanObject 1 (VRef 0) (State [Arr [VNull; VStr "a"; VUndefined]] ∅)
      = Done v st'
      ∧ snapshot 2 (heap st') v = Some (Json.JArr [Json.JStr "a"]))
  ∧ cleanObject 50 (VRef 0) (State [Arr [VRef 0]] ∅) = OutOfFuel.
Proof.
  destruct X23_arrays_lose_null_elements as (_ & Hflat & Hloop). split.
  - eexists _, _. split.
    + apply (Hflat 0 0 [VNull; VStr "a"; VUndefined]);
        [done | apply not_elem_of_empty | by repeat constructor].
    + by vm_compute.
  - apply Hloop; [done | apply not_elem_of_empty].
Defined.

(** *** Sanitizing only allocates *)

Lemma extends_refl st : extends st st.
Proof. by split. Qed.

Lemma extends_trans st1 st2 st3 :
  extends st1 st2 → extends st2 st3 → extends st1 st3.
Proof. intros [? ?] [? ?]. split; [by etrans | set_solver]. Qed.

Lemma grows_ret {A} (a : A) : grows (ret a).
Proof. intros st r st' [= _ <-]. apply extends_refl. Qed.

Lemma grows_bind {A B} (m : M A) (f : A → M B) :
  grows m → (∀ a, grows (f a)) → grows (bind m f).
Proof.
  intros Hm Hf st r st' (a & s1 & H1 & H2)%bind_Done.
  eapply extends_trans; [by eapply Hm | by eapply Hf].
Qed.

Lemma grows_throw {A} : grows (@throw A).
Proof. by intros st r st'. Qed.

Lemma grows_unmodelled {A} : grows (@unmodelled A).
Proof. by intros st r st'. Qed.

Lemma grows_out_of_fuel {A} : grows (@out_of_fuel A).
Proof. by intros st r st'. Qed.

Lemma grows_alloc c : grows (alloc c).
Proof.
  intros st r st' [= _ <-]. split; [by apply prefix_app_r | done].
Qed.

Lemma grows_deref a : grows (deref a).
Proof.
  intros st r st'. unfold deref. destruct (heap st !! a); [|done].
  intros [= _ <-]. apply extends_refl.
Qed.

Lemma grows_visited_has a : grows (visited_has a).
Proof. intros st r st' [= _ <-]. apply extends_refl. Qed.

Lemma grows_visited_add a : grows (visited_add a).
Proof. intros st r st' [= _ <-]. split; [done | simpl; set_solver]. Qed.

Lemma grows_mapM {A B} (f : A → M B) l :
  (∀ x, grows (f x)) → grows (mapM f l).
Proof.
  intros Hf. induction l as [|x l IH]; simpl; [apply grows_ret|].
  apply grows_bind; [done|]. intros y.
  apply grows_bind; [done|]. intros ys. apply grows_ret.
Qed.

Lemma grows_foldM {A B} (f : A → B → M A) l :
  (∀ a x, grows (f a x)) → ∀ a, grows (foldM f a l).
Proof.
  intros Hf. induction l as [|x l IH]; intros a; simpl; [apply grows_ret|].
  apply grows_bind; [done|]. intros a'. apply IH.
Qed.

Lemma grows_filterM {A} (f : A → M bool) l :
  (∀ x, grows (f x)) → grows (filterM f l).
Proof.
  intros Hf. induction l as [|x l IH]; simpl; [apply grows_ret|].
  apply grows_bind; [done|]. intros b.
  apply grows_bind; [done|]. intros r. apply grows_ret.
Qed.

Ltac grows_step :=
  first
    [ assumption
    | apply grows_ret | apply grows_throw | apply grows_unmodelled
    | apply grows_out_of_fuel | apply grows_alloc | apply grows_deref
    | apply grows_visited_has | apply grows_visited_add
    | apply grows_bind; [|intros ?; cbv beta]
    | apply grows_mapM; intros ?; cbv beta
    | apply grows_foldM; intros ? ?; cbv beta
    | apply grows_filterM; intros ?; cbv beta
    | match goal with
      | H : context [grows] |- grows _ => solve [apply H]
      | |- grows (if ?b then _ else _) => destruct b
      | |- grows (match ?x with _ => _ end) => destruct x
      | |- grows (let '(_, _) := ?x in _) => destruct x
      end
    | progress unfold isArray, get, elements, js_String, inferType,
        mapUnknownType, hasOwnProperty, assign, copy_description ].

Ltac grows_tac := repeat grows_step.

Section Growth.
Variable cleanObject' : value → M value.
Hypothesis cleanObject'_grows : ∀ v, grows (cleanObject' v).









Lemma grows_backfill_type cleaned : grows (backfill_type cleaned).
Proof. unfold backfill_type. grows_tac. Qed.

Lemma grows_check_consistency cleaned : grows (check_consistency cleaned).
Proof. unfold check_consistency. grows_tac. Qed.



End Growth.




(** *** The whitelist *)
Section Whitelist.
Import SchemaInvariants.

Ltac solve_mem := apply (bool_decide_unpack _); by vm_compute.

Lemma keys_set_field (P : string → Prop) k v fs :
  P k → Forall P (keys fs) → Forall P (keys (set_field k v fs)).
Proof.
  intros Hk. induction fs as [|[k' v'] fs IH]; simpl; intros Hfs.
  - by constructor.
  - apply Forall_cons in Hfs as [Hk' Hfs].
    destruct (String.eqb k k'); simpl; constructor; auto.
Qed.

Lemma delete_field_cons k k' v' fs :
  delete_field k ((k', v') :: fs)
  = if negb (String.eqb k k') then (k', v') :: delete_field k fs
    else delete_field k fs.
Proof. reflexivity. Qed.

Lemma keys_delete_field (P : string → Prop) k fs :
  Forall P (keys fs) → Forall P (keys (delete_field k fs)).
Proof.
  induction fs as [|[k' v'] fs IH]; intros Hfs; [done|].
  apply Forall_cons in Hfs as [Hk' Hfs]. rewrite delete_field_cons.
  destruct (negb (String.eqb k k')); [constructor|]; auto.
Qed.

Lemma staged_delete fs :
  staged fs → whitelisted (delete_field "_pendingRequired" fs).
Proof.
  unfold staged, whitelisted.
  induction fs as [|[k' v'] fs IH]; intros Hfs; [done|].
  apply Forall_cons in Hfs as [Hk' Hfs]. rewrite delete_field_cons.
  destruct (String.eqb "_pendingRequired" k') eqn:E; cbn [negb]; [auto|].
  constructor; [|auto]. destruct Hk' as [?| Hk']; [done|].
  apply String.eqb_neq in E. by subst.
Qed.

Lemma whitelisted_staged fs : whitelisted fs → staged fs.
Proof. intros H. eapply Forall_impl; [exact H|]. by left. Qed.

Lemma alloc_returns fs st v st' r fs' :
  alloc (Obj fs) st = Done v st' → v = VRef r →
  heap st' !! r = Some (Obj fs') → fs' = fs.
Proof.
  intros (-> & Hheap & _)%alloc_Done [= <-]. rewrite Hheap.
  rewrite lookup_app_r, Nat.sub_diag by lia. by intros [= <-].
Qed.

Lemma copy_description_keys (P : string → Prop) obj cleaned st c st' :
  copy_description obj cleaned st = Done c st' →
  P "description" → Forall P (keys cleaned) → Forall P (keys c).
Proof.
  unfold copy_description. intros H Hd Hc.
  repeat run_step H; [by apply keys_set_field | done].
Qed.

Lemma resolve_type_staged obj cleaned st c st' :
  resolve_type obj cleaned st = Done c st' → staged cleaned → staged c.
Proof.
  unfold resolve_type, staged. intros H Hc.
  repeat run_step H; try done;
    repeat (apply keys_set_field; [left; solve_mem|]); done.
Qed.

Lemma backfill_type_whitelisted cleaned st c st' :
  backfill_type cleaned st = Done c st' → whitelisted cleaned → whitelisted c.
Proof.
  unfold backfill_type, whitelisted. intros H Hc.
  repeat run_step H; try done; (apply keys_set_field; [solve_mem | done]).
Qed.

Lemma check_consistency_whitelisted cleaned st c st' :
  check_consistency cleaned st = Done c st' →
  whitelisted cleaned → whitelisted c.
Proof.
  unfold check_consistency, whitelisted. intros H Hc.
  apply bind_Done in H as (c1 & s1 & H1 & H).
  assert (Hc1 : Forall (fun k => k ∈ SUPPORTED_KEYS) (keys c1)).
  { repeat run_step H1; try done. by apply keys_set_field; [solve_mem|]. }
  repeat run_step H; try done. by apply keys_set_field; [solve_mem|].
Qed.

Lemma validate_required_whitelisted cleaned st c st' :
  validate_required cleaned st = Done c st' → staged cleaned → whitelisted c.
Proof.
  unfold validate_required. intros H Hc.
  apply bind_Done in H as (c1 & s1 & H1 & H). run_step H.
  apply staged_delete. unfold staged in *.
  repeat run_step H1; try done. apply keys_set_field; [left; solve_mem | done].
Qed.

Section WhitelistBody.
Variable cleanObject' : value → M value.
Hypothesis cleanObject'_whitelisted : ∀ v, returns_whitelisted (cleanObject' v).

Lemma filter_field_staged cleaned entry st c st' :
  filter_field cleanObject' cleaned entry st = Done c st' →
  staged cleaned → staged c.
Proof.
  unfold filter_field, staged. destruct entry as [key value]. intros H Hc.
  destruct (negb (bool_decide (key ∈ SUPPORTED_KEYS)) || String.eqb key "type")
    eqn:Hkey; [by run_step H|].
  apply orb_false_elim in Hkey as [Hkey%negb_false_iff%bool_decide_eq_true _].
  repeat run_step H; try done;
    (apply keys_set_field; [|done]);
    try first [by left | left; solve_mem | by right].
Qed.

Lemma clean_union_whitelisted obj unionKey union :
  returns_whitelisted (clean_union cleanObject' obj unionKey union).
Proof.
  unfold clean_union. intros st v st' H r fs Hv Hr.
  destruct (List.filter _ union) as [|first options].
  { rewrite (alloc_returns _ _ _ _ _ _ H Hv Hr).
    unfold whitelisted. simpl. repeat constructor; solve_mem. }
  apply bind_Done in H as (m & s1 & _ & H).
  apply bind_Done in H as (built & s2 & Hbuilt & H).
  assert (Hbuilt' : match built with
                    | Some cleaned => whitelisted cleaned
                    | None => True
                    end).
  { repeat run_step Hbuilt; try done;
      unfold whitelisted; simpl; repeat constructor; solve_mem. }
  destruct built as [cleaned|];
    [|by eapply cleanObject'_whitelisted].
  apply bind_Done in H as (c & s3 & Hc & H).
  rewrite (alloc_returns _ _ _ _ _ _ H Hv Hr).
  eapply copy_description_keys; [exact Hc | solve_mem | done].
Qed.

Lemma clean_const_whitelisted obj const :
  returns_whitelisted (clean_const obj const).
Proof.
  unfold clean_const. intros st v st' H r fs Hv Hr.
  apply bind_Done in H as (t & s1 & _ & H).
  destruct (negb (isValidEnumValue const)).
  - apply bind_Done in H as (c & s2 & Hc & H).
    rewrite (alloc_returns _ _ _ _ _ _ H Hv Hr).
    eapply copy_description_keys; [exact Hc | solve_mem |].
    simpl. repeat constructor; solve_mem.
  - apply bind_Done in H as (e & s2 & _ & H).
    apply bind_Done in H as (c & s3 & Hc & H).
    rewrite (alloc_returns _ _ _ _ _ _ H Hv Hr).
    eapply copy_description_keys; [exact Hc | solve_mem |].
    simpl. repeat constructor; solve_mem.
Qed.

Lemma clean_plain_whitelisted obj :
  returns_whitelisted (clean_plain cleanObject' obj).
Proof.
  unfold clean_plain. intros st v st' H r fs Hv Hr.
  destruct (truthy (get_field "$ref" obj)).
  { apply bind_Done in H as (d & s1 & _ & H).
    rewrite (alloc_returns _ _ _ _ _ _ H Hv Hr).
    unfold whitelisted. simpl. repeat constructor; solve_mem. }
  apply bind_Done in H as (unionKey & s0 & _ & H).
  destruct unionKey as [unionKey|].
  { apply bind_Done in H as (union & s1 & _ & H).
    by eapply clean_union_whitelisted. }
  destruct (negb (bool_decide (get_field "const" obj = VUndefined))).
  { by eapply clean_const_whitelisted. }
  apply bind_Done in H as (c0 & s1 & H0 & H).
  apply bind_Done in H as (c1 & s2 & H1 & H).
  apply bind_Done in H as (c2 & s3 & H2 & H).
  apply bind_Done in H as (c3 & s4 & H3 & H).
  apply bind_Done in H as (c4 & s5 & H4 & H).
  rewrite (alloc_returns _ _ _ _ _ _ H Hv Hr).
  apply resolve_type_staged in H0; [|by constructor].
  assert (Hc1 : staged c1).
  { eapply (foldM_invariant staged); [|exact H1|exact H0].
    intros a x st0 a' st0' Hf Ha. by eapply filter_field_staged. }
  eapply check_consistency_whitelisted; [exact H4|].
  eapply backfill_type_whitelisted; [exact H3|].
  by eapply validate_required_whitelisted.
Qed.

Lemma cleanObject_body_whitelisted obj :
  returns_whitelisted (cleanObject_body cleanObject' obj).
Proof.
  unfold cleanObject_body. intros st v st' H r fs Hv Hr.
  destruct obj as [| | b | n | s | a | |]; simpl in H;
    try (run_step H; discriminate).
  apply bind_Done in H as (seen & s1 & _ & H). destruct seen.
  { rewrite (alloc_returns _ _ _ _ _ _ H Hv Hr).
    unfold whitelisted. simpl. repeat constructor; solve_mem. }
  apply bind_Done in H as (c & s2 & _ & H). destruct c as [obj|elems].
  - apply bind_Done in H as (u & s3 & _ & H).
    by eapply clean_plain_whitelisted.
  - unfold clean_array in H. apply bind_Done in H as (mapped & s3 & _ & H).
    apply alloc_Done in H as (-> & Hheap & _). injection Hv as <-.
    rewrite Hheap in Hr.
    by rewrite lookup_app_r, Nat.sub_diag in Hr by lia.
Qed.

End WhitelistBody.

Lemma cleanObject_whitelisted fuel :
  ∀ obj, returns_whitelisted (cleanObject fuel obj).
Proof.
  induction fuel as [|fuel IH]; intros obj; simpl.
  - by intros st v st'.
  - by apply cleanObject_body_whitelisted.
Qed.

Lemma whitelisted_no_staging fs :
  whitelisted fs → get_field "_pendingRequired" fs = VUndefined.
Proof.
  unfold whitelisted, get_field.
  induction fs as [|[k x] fs IH]; intros Hw; [done|].
  apply Forall_cons in Hw as [Hk Hw]. cbn [assoc].
  destruct (String.eqb "_pendingRequired" k) eqn:E; [|by apply IH].
  apply String.eqb_eq in E as <-. exfalso.
  apply (bool_decide_pack _) in Hk. by vm_compute in Hk.
Qed.

(** X21: every object [cleanObject] returns, on whichever path it was
    built, has only keys of the whitelist; the staging key
    [_pendingRequired] is never left behind. *)
Theorem X21_only_whitelisted_keys fuel obj st v st' r fs :
  cleanObject fuel obj st = Done v st' →
  v = VRef r → heap st' !! r = Some (Obj fs) →
  Forall (fun k => k ∈ SUPPORTED_KEYS) (keys fs)
  ∧ get_field "_pendingRequired" fs = VUndefined.
Proof.
  intros H Hv Hr.
  pose proof (cleanObject_whitelisted fuel obj _ _ _ H _ _ Hv Hr) as Hw.
  split; [done | by apply whitelisted_no_staging].
Qed.

End Whitelist.

(** *** [required] and [properties] *)
Section RequiredKeys.
Import SchemaInvariants.

Lemma filterM_hasOwnProperty target rs :
  ∀ st out st',
    filterM (hasOwnProperty target) rs st = Done out st' →
    st' = st
    ∧ Forall (fun x => ∃ k, x = VStr k ∧ has_field k target = true) out.
Proof.
  induction rs as [|x rs IH]; intros st out st' H; simpl in H.
  - by run_step H.
  - apply bind_Done in H as (b & s1 & Hb & H).
    apply bind_Done in H as (r & s2 & Hr & H). run_step H.
    apply IH in Hr as [-> Hr]. unfold hasOwnProperty in Hb.
    destruct (has_field "hasOwnProperty" target); [done|].
    destruct x as [| | | |k| | |]; try done. run_step Hb. split; [done|].
    destruct (has_field k target) eqn:E; [|done].
    constructor; [eauto | done].
Qed.

Lemma elements_state v st l st' : elements v st = Done l st' → st' = st.
Proof.
  unfold elements. intros H. repeat run_step H. unfold deref in Hrun.
  destruct (heap st !! _); [|done]. by injection Hrun as _ <-.
Qed.

Lemma resolve_type_keeps k obj cleaned st c st' :
  k ≠ "type" → k ≠ "nullable" →
  resolve_type obj cleaned st = Done c st' →
  get_field k c = get_field k cleaned.
Proof.
  unfold resolve_type. intros H1 H2 H.
  repeat run_step H; try done; by rewrite !get_set_field_ne by done.
Qed.

Lemma filter_field_keeps_required cleanObject' cleaned entry st c st' :
  filter_field cleanObject' cleaned entry st = Done c st' →
  get_field "required" c = get_field "required" cleaned.
Proof.
  unfold filter_field. destruct entry as [key value]. intros H.
  repeat run_step H; try done; rewrite get_set_field_ne; try done;
    intros <-;
    match goal with E : bool_decide _ = true |- _ => by vm_compute in E end.
Qed.

Lemma backfill_type_keeps k cleaned st c st' :
  k ≠ "type" →
  backfill_type cleaned st = Done c st' →
  get_field k c = get_field k cleaned.
Proof.
  unfold backfill_type. intros Hk H.
  repeat run_step H; try done; by rewrite get_set_field_ne by done.
Qed.

Lemma check_consistency_keeps cleaned st c st' :
  check_consistency cleaned st = Done c st' →
  get_field "required" c = get_field "required" cleaned
  ∧ (truthy (get_field "properties" cleaned) = true →
     get_field "properties" c = get_field "properties" cleaned).
Proof.
  unfold check_consistency. intros H.
  apply bind_Done in H as (c1 & s1 & H1 & H).
  assert (Hc1 : get_field "required" c1 = get_field "required" cleaned
                ∧ get_field "properties" c1 = get_field "properties" cleaned).
  { repeat run_step H1; try done. by rewrite !get_set_field_ne by done. }
  destruct Hc1 as [Hr Hp]. rewrite <- Hr, <- Hp.
  destruct (is_str (get_field "type" c1) "object"
            && negb (truthy (get_field "properties" c1))) eqn:E.
  - repeat run_step H. rewrite get_set_field_ne by done. split; [done|].
    intros Ht. rewrite Ht in E. by rewrite andb_false_r in E.
  - by run_step H.
Qed.

Lemma validate_required_spec cleaned st c st' :
  validate_required cleaned st = Done c st' →
  get_field "required" cleaned = VUndefined →
  get_field "properties" c = get_field "properties" cleaned
  ∧ (get_field "required" c = VUndefined
     ∨ ∃ p props rs,
         get_field "properties" cleaned = VRef p
         ∧ heap st !! p = Some props
         ∧ get_field "required" c = VRef (length (heap st))
         ∧ heap st' = heap st ++ [Arr rs]
         ∧ Forall (fun x => ∃ k, x = VStr k
                                 ∧ has_field k (entries props) = true) rs).
Proof.
  unfold validate_required. intros H Hreq.
  apply bind_Done in H as (c1 & s1 & H1 & H). run_step H.
  rewrite !get_delete_field_ne by done.
  destruct (truthy (get_field "_pendingRequired" cleaned)
            && truthy (get_field "properties" cleaned));
    [|run_step H1; by auto].
  apply bind_Done in H1 as (rs & s2 & ->%elements_state & H1).
  apply bind_Done in H1 as (props & s3 & Hprops & H1).
  destruct (get_field "properties" cleaned) as [| | | | |p| |] eqn:Hp;
    try done.
  unfold deref in Hprops.
  destruct (heap st !! p) as [cell|] eqn:Hcell; [|done].
  injection Hprops as -> <-.
  apply bind_Done in H1 as (valid & s4 & [-> Hvalid]%filterM_hasOwnProperty
                            & H1).
  destruct (0 <? length valid).
  - apply bind_Done in H1 as (req & s5 & (-> & Hheap & _)%alloc_Done & H1).
    run_step H1. rewrite get_set_field_ne, get_set_field_eq by done.
    split; [by rewrite Hp|]. right. by exists p, props, valid.
  - run_step H1. rewrite Hreq, Hp. auto.
Qed.

(** X22: in a node built on the generic path, every name listed under
    [required] is an own key of the node's [properties]. *)
Theorem X22_required_names_are_properties fuel a obj st v st' :
  heap st !! a = Some (Obj obj) → a ∉ visited st →
  truthy (get_field "$ref" obj) = false →
  truthy (get_field "anyOf" obj) = false →
  truthy (get_field "oneOf" obj) = false →
  truthy (get_field "allOf" obj) = false →
  get_field "const" obj = VUndefined →
  cleanObject (S fuel) (VRef a) st = Done v st' →
  ∃ n fs,
    v = VRef n ∧ heap st' !! n = Some (Obj fs)
    ∧ required_within_properties (heap st') fs.
Proof.
  intros Hobj Ha Href Hany Hone Hall Hconst H.
  rewrite (cleanObject_fresh_plain _ _ _ _ Hobj Ha) in H.
  unfold clean_plain in H. rewrite Href in H.
  apply bind_Done in H as (unionKey & s0 & Hkey & H).
  assert (unionKey = None) as ->.
  { simpl in Hkey. rewrite Hany, Hone, Hall in Hkey. simpl in Hkey.
    apply bind_Done in Hkey as (k1 & s1 & ->%probe_None & Hkey).
    apply bind_Done in Hkey as (k2 & s2 & ->%probe_None & Hkey).
    apply bind_Done in Hkey as (k3 & s3 & ->%probe_None & Hkey).
    by run_step Hkey. }
  rewrite Hconst in H. simpl in H.
  apply bind_Done in H as (c0 & s1 & H0 & H).
  apply bind_Done in H as (c1 & s2 & H1 & H).
  apply bind_Done in H as (c2 & s3 & H2 & H).
  apply bind_Done in H as (c3 & s4 & H3 & H).
  apply bind_Done in H as (c4 & s5 & H4 & H).
  apply alloc_Done in H as (-> & Hheap & _).
  assert (Hr0 : get_field "required" c0 = VUndefined)
    by (by rewrite (resolve_type_keeps "required" _ _ _ _ _
                      ltac:(done) ltac:(done) H0)).
  assert (Hr1 : get_field "required" c1 = VUndefined).
  { eapply (foldM_invariant (fun c => get_field "required" c = VUndefined));
      [|exact H1|exact Hr0].
    intros x y st0 x' st0' Hf Hx.
    by rewrite (filter_field_keeps_required _ _ _ _ _ _ Hf). }
  destruct (validate_required_spec _ _ _ _ H2 Hr1) as [Hp2 Hspec].
  pose proof (backfill_type_keeps "required" _ _ _ _ ltac:(done) H3) as Hr3.
  pose proof (backfill_type_keeps "properties" _ _ _ _ ltac:(done) H3) as Hp3.
  destruct (check_consistency_keeps _ _ _ _ H4) as [Hr4 Hp4].
  destruct (grows_backfill_type _ _ _ _ H3) as [Hpre3 _].
  destruct (grows_check_consistency _ _ _ _ H4) as [Hpre4 _].
  assert (Hpre : heap s3 `prefix_of` heap st').
  { rewrite Hheap. etrans; [exact Hpre3|]. etrans; [exact Hpre4|].
    by apply prefix_app_r. }
  exists (length (heap s5)), c4. split_and!; [done| |].
  { rewrite Hheap. by rewrite lookup_app_r, Nat.sub_diag by lia. }
  intros r rs Hreq Hrs. rewrite Hr4, Hr3 in Hreq.
  destruct Hspec as [Hnone | (p & props & valid & Hp & Hcell & Hr & Hh & Hv)];
    [by rewrite Hnone in Hreq|].
  rewrite Hr in Hreq. injection Hreq as <-.
  assert (Hvalid_at : heap st' !! length (heap s2) = Some (Arr valid)).
  { eapply prefix_lookup_Some; [|exact Hpre]. rewrite Hh.
    by rewrite lookup_app_r, Nat.sub_diag by lia. }
  pose proof (eq_trans (eq_sym Hvalid_at) Hrs) as Heq.
  injection Heq as ->.
  exists p, props. split_and!; [| |done].
  - rewrite Hp4, Hp3, Hp2; [done|]. by rewrite Hp3, Hp2, Hp.
  - eapply prefix_lookup_Some; [|exact Hpre]. rewrite Hh.
    by apply lookup_app_l_Some.
Qed.

End RequiredKeys.

Section SanitizerRuns.
Import SchemaInvariants.

Lemma X21_only_whitelisted_keys_witness :
  ∃ v st' r fs,
    cleanObject 2 (VRef 0) (State point_schema ∅) = Done v st'
    ∧ v = VRef r ∧ heap st' !! r = Some (Obj fs)
    ∧ keys fs = ["type"; "properties"; "required"]
    ∧ Forall (fun k => k ∈ SUPPORTED_KEYS) (keys fs).
Proof.
  destruct (cleanObject 2 (VRef 0) (State point_schema ∅))
    as [v st'| | |] eqn:Hrun; try by vm_compute in Hrun.
  assert (Hnode : ∃ r fs, v = VRef r ∧ heap st' !! r = Some (Obj fs)
                          ∧ keys fs = ["type"; "properties"; "required"]).
  { vm_compute in Hrun. injection Hrun as <- <-. by eexists _, _. }
  destruct Hnode as (r & fs & Hv & Hfs & Hkeys).
  exists v, st', r, fs. split_and!; [done..|].
  by apply (X21_only_whitelisted_keys 2 (VRef 0) _ _ _ _ _ Hrun Hv Hfs).
Defined.

Lemma X22_required_names_are_properties_witness :
  ∃ v st' n fs,
    cleanObject 2 (VRef 0) (State point_schema ∅) = Done v st'
    ∧ v = VRef n ∧ heap st' !! n = Some (Obj fs)
    ∧ required_within_properties (heap st') fs
    ∧ snapshot 4 (heap st') v
      = Some (Json.JObj
                [("type", Json.JStr "object");
                 ("properties",
                  Json.JObj [("x", Json.JObj [("type", Json.JStr "integer")])]);
                 ("required", Json.JArr [Json.JStr "x"])]).
Proof.
  destruct (cleanObject 2 (VRef 0) (State point_schema ∅))
    as [v st'| | |] eqn:Hrun; try by vm_compute in Hrun.
  destruct (X22_required_names_are_properties 1 0 _ (State point_schema ∅)
              v st' eq_refl (not_elem_of_empty (C:=gset addr) 0)
              eq_refl eq_refl eq_refl eq_refl eq_refl Hrun)
    as (n & fs & Hv & Hfs & Hreq).
  exists v, st', n, fs. split_and!; [done..|].
  vm_compute in Hrun. injection Hrun as <- <-. by vm_compute.
Defined.

End SanitizerRuns.

End MoreSanitizerFacts.
